(** * Preventivi AbitaLab: pricing rules and document model of [main.py]

    A shallow embedding of the quotation generator.  Python [float] is IEEE
    binary64, which is the kernel's primitive [float]; Python [int] is [Z];
    Python [str] is a [string] holding the UTF-8 bytes of the text (every
    character the program tests or replaces is ASCII).  A call that can raise
    returns an [esito]. *)

From Stdlib Require Import ZArith Bool List String Ascii Floats Lia.
From Stdlib Require Import DecimalString.
Import ListNotations.

Set Warnings "-inexact-float".

Local Open Scope Z_scope.

(** ** Exceptions *)

Inductive eccezione : Type :=
| OverflowError
| ValueError
| TypeError
| OSError
| RequestException.

Inductive esito (A : Type) : Type :=
| Ok (a : A)
| Raise (e : eccezione).

Arguments Ok {A} a.
Arguments Raise {A} e.

Definition bind {A B : Type} (m : esito A) (k : A -> esito B) : esito B :=
  match m with
  | Ok a => k a
  | Raise e => Raise e
  end.

Notation "x <- m ;; k" := (bind m (fun x => k))
  (at level 61, m at next level, right associativity).

(** [try: body except Exception: handler] *)
Definition try_except {A : Type} (body : esito A) (handler : eccezione -> esito A)
  : esito A :=
  match body with
  | Ok a => Ok a
  | Raise e => handler e
  end.

(** ** Strings: the [str] methods the program calls *)

Module PyStr.

Local Open Scope string_scope.

Definition lower_ascii (c : ascii) : ascii :=
  let n := nat_of_ascii c in
  if (Nat.leb 65 n && Nat.leb n 90)%bool then ascii_of_nat (n + 32) else c.

(** [s.lower()]; the letters of the markers looked for ('pz', 'corpo',
    'mq') are produced by no character outside ASCII. *)
Fixpoint lower (s : string) : string :=
  match s with
  | EmptyString => EmptyString
  | String c r => String (lower_ascii c) (lower r)
  end.

(** [needle in hay] *)
Fixpoint contains (needle hay : string) : bool :=
  if String.prefix needle hay then true
  else match hay with
       | EmptyString => false
       | String _ r => contains needle r
       end.

(** [s.replace(old, new)] for one-character [old] and [new]. *)
Fixpoint replace (old new : ascii) (s : string) : string :=
  match s with
  | EmptyString => EmptyString
  | String c r =>
      String (if Ascii.eqb c old then new else c) (replace old new r)
  end.

(** truth value of a [str] *)
Definition truthy (s : string) : bool :=
  match s with EmptyString => false | _ => true end.

End PyStr.

(** ** Floats: exact value, [round], [format], conversion from [int] *)

Module PyFloat.

Local Open Scope float_scope.

Definition neg_if (s : bool) (f : float) : float := if s then - f else f.

(** Nearest integer to [num / den], ties to even ([0 <= num], [0 < den]). *)
Definition div_half_even (num den : Z) : Z :=
  let q := (num / den)%Z in
  let r := (num mod den)%Z in
  match (2 * r ?= den)%Z with
  | Lt => q
  | Gt => (q + 1)%Z
  | Eq => if Z.even q then q else (q + 1)%Z
  end.

(** The magnitude [m * 2^e] scaled by [10^k] and rounded half-even to an
    integer: the digits [dtoa] yields in mode 3 with [k] decimals. *)
Definition scaled (k : nat) (m : positive) (e : Z) : Z :=
  let p := (10 ^ Z.of_nat k)%Z in
  if (0 <=? e)%Z then (Z.pos m * 2 ^ e * p)%Z
  else div_half_even (Z.pos m * p) (2 ^ (- e)).

(** The float nearest to [n / d], ties to even ([0 < n], [0 < d]): what
    [strtod] returns for a decimal string and [PyLong_AsDouble] for an
    integer.  Too large a quotient gives [infinity]. *)
Definition nearest (n d : Z) : float :=
  let t := (Z.log2 n - Z.log2 d)%Z in
  let ge := if (0 <=? t)%Z then (d * 2 ^ t <=? n)%Z else (d <=? n * 2 ^ (- t))%Z in
  let e := if ge then (t - 52)%Z else (t - 53)%Z in
  let q := if (0 <=? e)%Z then div_half_even n (d * 2 ^ e)
           else div_half_even (n * 2 ^ (- e)) d in
  SF2Prim (S754_finite false (Z.to_pos q) e).

(** [round(x, k)]: NaN and infinities round to themselves; a finite value
    is rounded half-even on its exact decimal expansion and read back. *)
Definition round (x : float) (k : nat) : float :=
  match Prim2SF x with
  | S754_finite s m e =>
      let n := scaled k m e in
      if (n =? 0)%Z then SF2Prim (S754_zero s)
      else neg_if s (nearest n (10 ^ Z.of_nat k))
  | _ => x
  end.

(** [float(n)] as applied to the [int] operand of a mixed operation. *)
Definition of_int (n : Z) : esito float :=
  if (n =? 0)%Z then Ok 0
  else
    let f := nearest (Z.abs n) 1 in
    if is_infinity f then Raise OverflowError
    else Ok (neg_if (n <? 0)%Z f).

(** [int(x)]: truncation, raising on NaN and infinities. *)
Definition to_int (x : float) : esito Z :=
  match Prim2SF x with
  | S754_nan => Raise ValueError
  | S754_infinity _ => Raise OverflowError
  | S754_zero _ => Ok 0%Z
  | S754_finite s m e =>
      let a := if (0 <=? e)%Z then (Z.pos m * 2 ^ e)%Z
               else (Z.pos m / 2 ^ (- e))%Z in
      Ok (if s then (- a)%Z else a)
  end.

(** [x == n] for an [int] [n]: exact comparison of the two values. *)
Definition eq_int (x : float) (n : Z) : bool :=
  match Prim2SF x with
  | S754_zero _ => (n =? 0)%Z
  | S754_finite s m e =>
      let a := if s then Z.neg m else Z.pos m in
      if (0 <=? e)%Z then (a * 2 ^ e =? n)%Z
      else (a =? n * 2 ^ (- e))%Z
  | _ => false
  end.

(** [x > n] for the small integer constants of the program. *)
Definition gt_int (x : float) (n : Z) : bool :=
  match of_int n with
  | Ok f => PrimFloat.ltb f x
  | Raise _ => false
  end.

(** *** Decimal output *)

Definition cifre (n : Z) : string :=
  NilZero.string_of_uint (N.to_uint (Z.to_N n)).

Fixpoint zeri (n : nat) : string :=
  match n with
  | O => EmptyString
  | S n' => String "0" (zeri n')
  end.

(** [d] padded with zeros on the left to [k] characters. *)
Definition zfill (k : nat) (d : string) : string :=
  (zeri (k - String.length d) ++ d)%string.

Fixpoint rev_acc (s acc : string) : string :=
  match s with
  | EmptyString => acc
  | String c r => rev_acc r (String c acc)
  end.

(** Digits given least significant first, a separator after every third
    one that has a successor. *)
Fixpoint ogni_tre (sep : ascii) (s : string) : string :=
  match s with
  | String a (String b (String c (String _ _ as r))) =>
      String a (String b (String c (String sep (ogni_tre sep r))))
  | _ => s
  end.

Definition raggruppa (sep : ascii) (d : string) : string :=
  rev_acc (ogni_tre sep (rev_acc d EmptyString)) EmptyString.

Definition segno (s : bool) : string := if s then "-"%string else ""%string.

(** Integer and fractional digits of a finite magnitude at [k] decimals. *)
Definition parte_intera (k : nat) (m : positive) (e : Z) : string :=
  cifre (scaled k m e / 10 ^ Z.of_nat k).

Definition parte_decimale (k : nat) (m : positive) (e : Z) : string :=
  zfill k (match k with
           | O => EmptyString
           | _ => cifre (scaled k m e mod 10 ^ Z.of_nat k)
           end).

(** [format(x, ',.kf')] when [comma], [format(x, '.kf')] otherwise. *)
Definition format_f (comma : bool) (k : nat) (x : float) : string :=
  match Prim2SF x with
  | S754_nan => "nan"%string
  | S754_infinity s => (segno s ++ "inf")%string
  | S754_zero s =>
      (segno s ++ "0"
         ++ match k with O => "" | _ => "." ++ zfill k "" end)%string
  | S754_finite s m e =>
      let i := parte_intera k m e in
      (segno s ++ (if comma then raggruppa "," i else i)
         ++ match k with O => "" | _ => "." ++ parte_decimale k m e end)%string
  end.

(** [str(n)] for an [int]. *)
Definition str_int (n : Z) : string :=
  (segno (n <? 0)%Z ++ cifre (Z.abs n))%string.

End PyFloat.

(** ** [str] of an [int] *)

(** The default of [sys.get_int_max_str_digits()]. *)
Definition int_max_str_digits : nat := 4300.

(** [str(n)] and [f"{n}"] for an [int]: an integer with more decimal
    digits than the limit raises [ValueError]. *)
Definition str_int_py (n : Z) : esito string :=
  if Nat.ltb int_max_str_digits (String.length (PyFloat.cifre (Z.abs n)))
  then Raise ValueError
  else Ok (PyFloat.str_int n).

(** ** Data model (the pydantic classes) *)

Record VocePreventivo : Type := mkVoce {
  descrizione : string;
  pz : option Z;
  qta : option float;
  um : option string;
  prezzo : option float
}.

Record Posizione : Type := mkPosizione {
  pos_numero : Z;
  voci : list VocePreventivo
}.

Record DatiCliente : Type := mkCliente {
  cl_nome : string;
  cl_indirizzo : string;
  cl_citta : string;
  cantiere : string
}.

Record DatiAzienda : Type := mkAzienda {
  az_nome : string;
  az_indirizzo : string;
  cap_citta : string;
  p_iva : string;
  telefono : string;
  email : string;
  sito : string
}.

Record Preventivo : Type := mkPreventivo {
  numero : string;
  data : string;
  cliente : DatiCliente;
  azienda : DatiAzienda;
  posizioni : list Posizione;
  iva_percentuale : float
}.

(** ** Pricing and display functions *)

Section Utilita.

Local Open Scope float_scope.
Local Open Scope string_scope.

(** [voce.um and marker in voce.um.lower()] as a condition *)
Definition um_contiene (voce : VocePreventivo) (marker : string) : bool :=
  match um voce with
  | None => false
  | Some u => PyStr.truthy u && PyStr.contains marker (PyStr.lower u)
  end.

Definition calcola_totale_voce (voce : VocePreventivo) : esito float :=
  match prezzo voce with
  | None => Ok 0
  | Some p =>
      let fallback := Ok (PyFloat.round p 2) in
      if um_contiene voce "pz" then
        match pz voce with
        | Some n => x <- PyFloat.of_int n ;; Ok (PyFloat.round (p * x) 2)
        | None => fallback
        end
      else if um_contiene voce "corpo" then
        Ok (PyFloat.round p 2)
      else if um_contiene voce "mq" then
        match qta voce with
        | Some q =>
            if PyFloat.gt_int p 10000 && PyFloat.gt_int q 10
            then Ok (PyFloat.round p 2)
            else Ok (PyFloat.round (p * q) 2)
        | None => fallback
        end
      else
        match qta voce with
        | Some q => Ok (PyFloat.round (p * q) 2)
        | None => fallback
        end
  end.

Definition formatta_euro (valore : float) : string :=
  PyStr.replace "X" "."
    (PyStr.replace "." ","
       (PyStr.replace "," "X" (PyFloat.format_f true 2 valore ++ " €"))).

Definition formatta_numero (valore : float) : esito string :=
  n <- PyFloat.to_int valore ;;
  if PyFloat.eq_int valore n then Ok (PyFloat.str_int n)
  else Ok (PyStr.replace "." "," (PyFloat.format_f false 2 valore)).

Definition formatta_prezzo_e_um (voce : VocePreventivo) : string * string :=
  match prezzo voce with
  | None => ("", match um voce with
                 | Some u => if PyStr.truthy u then u else ""
                 | None => ""
                 end)
  | Some p =>
      (formatta_euro p,
       match um voce with
       | Some u => if PyStr.truthy u then u else ""
       | None => ""
       end)
  end.

End Utilita.

(** ** Document model: the platypus objects the program builds *)



(** The paragraph styles by name: ['Normal'] of the sample style sheet, the
    entries of [custom_styles], and the style built for the logo fallback. *)
Inductive stile : Type :=
| Normal | HeaderInfo | CompanyName | BoldRight | SmallText | SmallTextCenter
| SmallTextRight | TotalsLabel | TotalsValue | NormalCenter | LegalTitle
| LegalBody | LogoFallback.


Inductive colore : Type :=
| HexColor (s : string)
| whitesmoke
| black
| grey.

Definition casella : Type := Z * Z.

(** Table style commands, [(name, start, stop, ...)] tuples in the source. *)
Inductive comando : Type :=
| BACKGROUND (start stop : casella) (c : colore)
| TEXTCOLOR (start stop : casella) (c : colore)
| FONTNAME (start stop : casella) (n : string)
| FONTSIZE (start stop : casella) (n : Z)
| ALIGN (start stop : casella) (a : string)
| VALIGN (start stop : casella) (a : string)
| BOX (start stop : casella) (w : float) (c : colore)
| INNERGRID (start stop : casella) (w : float) (c : colore)
| SPAN (start stop : casella)
| LINEABOVE (start stop : casella) (w : float) (c : colore)
| LINEBELOW (start stop : casella) (w : float) (c : colore)
| LEFTPADDING (start stop : casella) (n : Z)
| RIGHTPADDING (start stop : casella) (n : Z)
| BOTTOMPADDING (start stop : casella) (n : Z)
| TOPPADDING (start stop : casella) (n : Z).

Inductive flowable : Type :=
| Paragraph (text : string) (style : stile)
| Spacer (width height : float)
| Image (content : string) (width height : float) (hAlign : string)
| Table (righe : list (list cella)) (colWidths : list float) (repeatRows : Z)
        (comandi : list comando)
| PageBreak
with cella : Type :=
| Testo (s : string)
| Elemento (f : flowable)
| Elementi (l : list flowable).

(** [reportlab.lib.units]: [inch = 72.0], [cm = inch / 2.54]. *)
Definition cm : float := (72 / 2.54)%float.

(** What [Table.setStyle(TableStyle(cmds))] does with the command list:
    reportlab's [_addCommand] dispatches on [cmd[0]] for each entry in turn,
    so an entry that is [None] raises [TypeError] ('NoneType' object is not
    subscriptable) and the table gets no style. *)
Fixpoint setStyle (cmds : list (option comando)) : esito (list comando) :=
  match cmds with
  | [] => Ok []
  | None :: _ => Raise TypeError
  | Some c :: r => r' <- setStyle r ;; Ok (c :: r')
  end.

(** [Table(data, colWidths, repeatRows)] followed by [setStyle]. *)
Definition tabella (righe : list (list cella)) (colWidths : list float)
    (repeatRows : Z) (cmds : list (option comando)) : esito flowable :=
  applicati <- setStyle cmds ;;
  Ok (Table righe colWidths repeatRows applicati).

(** The answer of [requests.get]: only the two attributes read. *)
Record risposta : Type := mkRisposta {
  status_code : Z;
  content : string
}.

(** ** Page numbering: [PageNumCanvas] over reportlab's [Canvas] *)

Module PageNumCanvas.

Local Open Scope string_scope.

Inductive operazione : Type :=
| Disegno (s : string)
| SetFont (n : string) (size : Z)
| DrawRightString (x y : float) (text : string).

(** The attributes of the canvas that [dict(self.__dict__)] copies by
    value ([_code] is rebound to a fresh list at every page start, so a
    snapshot keeps the page's own list). *)
Record dizionario : Type := mkDiz {
  _pageNumber : Z;
  _code : list operazione;
  _fontname : string;
  _fontsize : Z
}.

(** The canvas: its attribute dictionary, and the two objects every
    snapshot shares with it by reference, the [pages] list and the PDF
    document [_doc] (restoring a snapshot rebinds both to the same
    objects, so neither is rolled back); [salvato] is set once the file
    has been written. *)
Record canvas : Type := mkCanvas {
  attr : dizionario;
  pages : list dizionario;
  _doc : list (list operazione);
  salvato : bool
}.

(** [Canvas.__init__] then [self.pages = []] *)
Definition init : canvas :=
  mkCanvas (mkDiz 1 [] "Helvetica" 12) [] [] false.

Definition con_attr (c : canvas) (d : dizionario) : canvas :=
  mkCanvas d (pages c) (_doc c) (salvato c).

(** [Canvas._startPage]: next page number, empty accumulators, initial
    graphics state. *)
Definition _startPage (c : canvas) : canvas :=
  con_attr c (mkDiz (_pageNumber (attr c) + 1) [] "Helvetica" 12).

(** A drawing call made by the layout: it appends to the page's code. *)
Definition disegna (o : operazione) (c : canvas) : canvas :=
  let d := attr c in
  con_attr c (mkDiz (_pageNumber d) (_code d ++ [o]) (_fontname d) (_fontsize d)).

Definition setFont (n : string) (size : Z) (c : canvas) : canvas :=
  let d := attr c in
  con_attr c (mkDiz (_pageNumber d) (_code d ++ [SetFont n size]) n size).

Definition drawRightString (x y : float) (text : string) (c : canvas) : canvas :=
  disegna (DrawRightString x y text) c.

(** [Canvas.showPage] of the base class: the page goes into the document. *)
Definition super_showPage (c : canvas) : canvas :=
  _startPage (mkCanvas (attr c) (pages c) (_doc c ++ [_code (attr c)]) (salvato c)).

(** The override: [self.pages.append(dict(self.__dict__)); self._startPage()] *)
Definition showPage (c : canvas) : canvas :=
  _startPage (mkCanvas (attr c) (pages c ++ [attr c]) (_doc c) (salvato c)).

Definition etichetta (pagina page_count : Z) : string :=
  "Pagina " ++ PyFloat.str_int pagina ++ " di " ++ PyFloat.str_int page_count.

Definition draw_page_number (page_count : Z) (c : canvas) : canvas :=
  let c := setFont "Helvetica" 8 c in
  drawRightString (20 * cm)%float (1 * cm)%float
    (etichetta (_pageNumber (attr c)) page_count) c.

(** [Canvas.save] of the base class: a page still open is closed through
    [self.showPage()], which is the override, then the file is written. *)
Definition super_save (c : canvas) : canvas :=
  let c := match _code (attr c) with
           | [] => c
           | _ :: _ => showPage c
           end in
  mkCanvas (attr c) (pages c) (_doc c) true.

(** The body of [for page in self.pages] *)
Definition ripeti (page_count : Z) (c : canvas) (page : dizionario) : canvas :=
  super_showPage (draw_page_number page_count (con_attr c page)).

Definition save (c : canvas) : canvas :=
  let page_count := Z.of_nat (List.length (pages c)) in
  super_save (fold_left (ripeti page_count) (pages c) c).

(** What the document template does to the canvas while it lays the
    story out: drawing calls and page ends. *)
Inductive azione : Type :=
| Disegna (o : operazione)
| FinePagina.

Definition esegui (c : canvas) (a : azione) : canvas :=
  match a with
  | Disegna o => disegna o c
  | FinePagina => showPage c
  end.

Definition impagina (az : list azione) : canvas := fold_left esegui az init.

Definition conta_pagine (az : list azione) : nat :=
  List.length (filter (fun a => match a with
                                | FinePagina => true
                                | Disegna _ => false
                                end) az).

(** [n] consecutive page numbers from [da]. *)
Fixpoint numeri (da : Z) (n : nat) : list Z :=
  match n with
  | O => []
  | S k => da :: numeri (da + 1) k
  end.

(** The stamp drawn on a page. *)
Definition timbro (pagina page_count : Z) : list operazione :=
  [SetFont "Helvetica" 8;
   DrawRightString (20 * cm)%float (1 * cm)%float (etichetta pagina page_count)].

End PageNumCanvas.

(** ** [genera_pdf_preventivo] *)

Section GeneraPdf.

Local Open Scope string_scope.
Local Open Scope float_scope.

(** [requests.get(url, timeout=...)]: a response or an exception. *)
Variable requests_get : string -> Z -> esito risposta.

(** reportlab's paragraph parser: whether it accepts a text.
    [Paragraph(text, style)] parses its text when it is built and raises
    [ValueError] on markup that is not well formed. *)
Variable markup_ok : string -> bool.

(** Whether bytes decode as an image: [Image] over a file object opens it
    when it is built and raises when it cannot. *)
Variable immagine_ok : string -> bool.

(** [doc.build(elements, canvasmaker=PageNumCanvas)] followed by the
    content of the buffer: reportlab's layout of the story, which yields
    the bytes of the document or raises. *)
Variable doc_build : list flowable -> esito string.

(** [Paragraph(text, style)] for a text that holds request data.  The
    paragraphs of fixed texts and of formatted numbers are built with the
    constructor: their markup is well formed. *)
Definition paragraph (text : string) (style : stile) : esito flowable :=
  if markup_ok text then Ok (Paragraph text style) else Raise ValueError.

Definition logo_url : string :=
  "https://www.abitalab.it/assets/custom/266/img/logo.png".


(** Lines 192-213: the [try] around the logo download.  An image that
    does not decode raises inside the [try] and is handled like a failed
    download; the fallback paragraph is built from the company name, in
    the [else] branch and again in the handler, and what it raises in the
    handler leaves the function.  The handler also prints the exception to
    the standard output. *)
Definition carica_logo (preventivo : Preventivo) : esito flowable :=
  try_except
    (response <- requests_get logo_url 10 ;;
     if (status_code response =? 200)%Z
     then if immagine_ok (content response)
          then Ok (Image (content response) (7 * cm) (2 * cm) "LEFT")
          else Raise OSError
     else paragraph ("<b>" ++ az_nome (azienda preventivo) ++ "</b>") LogoFallback)
    (fun _ => paragraph ("<b>" ++ az_nome (azienda preventivo) ++ "</b>") LogoFallback).

Definition intestazione : list cella :=
  [Testo "Pos."; Testo "Descrizione"; Testo "Pz"; Testo "Qtà"; Testo "U.M.";
   Testo "Prezzo"; Testo "Totale"].

(** Lines 273-295: [for voce in pos.voci].  [totale_posizione] starts as
    the [int] 0, which the first [+=] turns into the float 0.0.  The
    position number and the piece-count are written with [str_int_py],
    the description and the unit go through the paragraph parser. *)
Fixpoint ciclo_voci (numero_pos : Z) (vs : list VocePreventivo)
    (table_data : list (list cella)) (totale_posizione : float)
    (is_first_row : bool) : esito (list (list cella) * float) :=
  match vs with
  | [] => Ok (table_data, totale_posizione)
  | voce :: resto =>
      pos_num <- (if is_first_row
                  then n <- str_int_py numero_pos ;;
                       Ok (Elemento (Paragraph ("<b>" ++ n ++ "</b>") SmallTextCenter))
                  else Ok (Testo "")) ;;
      totale_voce <- calcola_totale_voce voce ;;
      let totale_posizione := totale_posizione + totale_voce in
      pz_str <- match pz voce with
                | Some n => str_int_py n
                | None => Ok ""
                end ;;
      qta_str <- match qta voce with
                 | Some q => formatta_numero q
                 | None => Ok ""
                 end ;;
      let '(prezzo_str, um_str) := formatta_prezzo_e_um voce in
      let totale_str := formatta_euro totale_voce in
      descrizione_par <- paragraph (descrizione voce) SmallText ;;
      um_par <- paragraph um_str SmallTextCenter ;;
      let row := [pos_num;
                  Elemento descrizione_par;
                  Elemento (Paragraph pz_str SmallTextCenter);
                  Elemento (Paragraph qta_str SmallTextCenter);
                  Elemento um_par;
                  Elemento (Paragraph prezzo_str SmallTextRight);
                  Elemento (Paragraph totale_str SmallTextRight)] in
      ciclo_voci numero_pos resto (table_data ++ [row])%list totale_posizione false
  end.

(** Lines 315-337: the command list handed to [TableStyle]. *)
Definition stile_posizione (pos : Posizione) : list (option comando) :=
  [Some (BACKGROUND (0, 0) (-1, 0) (HexColor "#003366"));
   Some (TEXTCOLOR (0, 0) (-1, 0) whitesmoke);
   Some (FONTNAME (0, 0) (-1, 0) "Helvetica-Bold");
   Some (FONTSIZE (0, 0) (-1, -1) 8);
   Some (ALIGN (0, 0) (-1, 0) "CENTER");
   Some (VALIGN (0, 0) (-1, -1) "TOP");
   Some (ALIGN (2, 1) (4, -1) "CENTER");
   Some (ALIGN (5, 1) (-1, -1) "RIGHT");
   Some (BOX (0, 0) (-1, -1) 1 black);
   Some (INNERGRID (0, 0) (-1, -1) 0.25 black);
   (if (1 <? Z.of_nat (List.length (voci pos)))%Z
    then Some (SPAN (0, 1) (0, -2)) else None);
   Some (SPAN (1, -1) (5, -1));
   Some (LINEABOVE (0, -1) (-1, -1) 1 black)]%Z.

Definition riga_totale (totale_posizione : float) : list cella :=
  [Testo "";
   Elemento (Paragraph "<b>Totale Posizione</b>" BoldRight);
   Testo ""; Testo ""; Testo ""; Testo "";
   Elemento (Paragraph ("<b>" ++ formatta_euro totale_posizione ++ "</b>")
               BoldRight)].

(** Lines 268-340: the body of [for pos in preventivo.posizioni], on the
    two variables the loop carries. *)
Definition passo_posizione (pos : Posizione) (elements : list flowable)
    (subtotale_merce : float) : esito (list flowable * float) :=
  r <- ciclo_voci (pos_numero pos) (voci pos) [intestazione] 0 true ;;
  let '(table_data, totale_posizione) := r in
  let subtotale_merce := subtotale_merce + totale_posizione in
  let table_data := (table_data ++ [riga_totale totale_posizione])%list in
  table <- tabella table_data
             [1 * cm; 8.5 * cm; 0.8 * cm; 1.2 * cm; 1.2 * cm; 2.65 * cm; 2.65 * cm]
             1 (stile_posizione pos) ;;
  Ok ((elements ++ [table; Spacer 1 (0.5 * cm)])%list, subtotale_merce).

Fixpoint ciclo_posizioni (ps : list Posizione) (elements : list flowable)
    (subtotale_merce : float) : esito (list flowable * float) :=
  match ps with
  | [] => Ok (elements, subtotale_merce)
  | pos :: resto =>
      r <- passo_posizione pos elements subtotale_merce ;;
      ciclo_posizioni resto (fst r) (snd r)
  end.

(** Lines 343-345: [(imponibile, iva, totale_finale)]. *)
Definition totali_finali (subtotale_merce iva_percentuale : float)
  : float * float * float :=
  let imponibile := subtotale_merce in
  let iva := imponibile * (iva_percentuale / 100) in
  let totale_finale := imponibile + iva in
  (imponibile, iva, totale_finale).

(** Lines 347-354: [summary_data]. *)
Definition summary_data (subtotale_merce iva_percentuale : float)
  : list (list cella) :=
  let '(imponibile, iva, totale_finale) :=
    totali_finali subtotale_merce iva_percentuale in
  [[Elemento (Paragraph "Imponibile" TotalsLabel);
    Elemento (Paragraph (formatta_euro imponibile) TotalsValue)];
   [Elemento (Paragraph ("IVA " ++ PyFloat.format_f false 0 iva_percentuale ++ "%")
                TotalsLabel);
    Elemento (Paragraph (formatta_euro iva) TotalsValue)];
   [Elemento (Paragraph "<b>Totale Preventivo</b>" TotalsLabel);
    Elemento (Paragraph ("<b>" ++ formatta_euro totale_finale ++ "</b>")
                TotalsValue)]].

Definition nl : string := String (ascii_of_nat 10) "".

Definition quote_info (preventivo : Preventivo) : string :=
  nl ++ "    Data: " ++ data preventivo ++ "<br/><br/>" ++
  nl ++ "    <b>Preventivo N. " ++ numero preventivo ++ "</b><br/><br/>" ++
  nl ++ "    <b>Cantiere:</b> " ++ cantiere (cliente preventivo) ++
  nl ++ "    ".

Definition client_info (preventivo : Preventivo) : string :=
  nl ++ "    Spett.le<br/>" ++
  nl ++ "    <b>" ++ cl_nome (cliente preventivo) ++ "</b><br/>" ++
  nl ++ "    " ++ cl_indirizzo (cliente preventivo) ++ "<br/>" ++
  nl ++ "    " ++ cl_citta (cliente preventivo) ++
  nl ++ "    ".

Definition legal_elements : list flowable :=
  [Paragraph "Condizioni Generali" LegalTitle;
   Paragraph "<b>Validità dell'offerta:</b> La presente offerta è valida per 30 giorni dalla data di emissione." LegalBody;
   Paragraph "<b>Condizioni di pagamento:</b> Le modalità di pagamento saranno concordate in fase di contratto definitivo." LegalBody;
   Paragraph "<b>Tempi di consegna:</b> I tempi di consegna sono indicativi e verranno confermati al momento dell'ordine definitivo." LegalBody;
   Paragraph "<b>Note:</b> Eventuali opere non esplicitamente menzionate in questo preventivo sono da considerarsi escluse." LegalBody;
   Spacer 1 (1 * cm);
   Paragraph "Trattamento dei dati personali" LegalTitle;
   Paragraph "Ai sensi del Reg. UE n. 679/2016 (GDPR), i dati personali forniti saranno trattati per le finalità connesse all'esecuzione del presente rapporto pre-contrattuale e contrattuale." LegalBody].

(** Lines 215-391 once [logo_element] is bound: the story handed to
    [doc.build]. *)
Definition componi (logo_element : flowable) (preventivo : Preventivo)
  : esito (list flowable) :=
  let az := azienda preventivo in
  nome_par <- paragraph (az_nome az) CompanyName ;;
  indirizzo_par <- paragraph (az_indirizzo az) HeaderInfo ;;
  cap_citta_par <- paragraph (cap_citta az) HeaderInfo ;;
  p_iva_par <- paragraph (p_iva az) HeaderInfo ;;
  telefono_par <- paragraph (telefono az) HeaderInfo ;;
  email_par <- paragraph (email az) HeaderInfo ;;
  sito_par <- paragraph (sito az) HeaderInfo ;;
  let company_details :=
    [nome_par; indirizzo_par; cap_citta_par; p_iva_par; telefono_par;
     email_par; sito_par] in
  header_table <- tabella [[Elemento logo_element; Elementi company_details]]
                    [7 * cm; 11 * cm] 0
                    [Some (VALIGN (0, 0) (-1, -1) "TOP");
                     Some (ALIGN (0, 0) (0, 0) "LEFT");
                     Some (LEFTPADDING (1, 0) (1, 0) 20);
                     Some (RIGHTPADDING (0, 0) (0, 0) 15)]%Z ;;
  let elements := [header_table; Spacer 1 (1 * cm)] in
  quote_par <- paragraph (quote_info preventivo) Normal ;;
  client_par <- paragraph (client_info preventivo) Normal ;;
  info_table <- tabella [[Elemento quote_par; Elemento client_par]]
                  [9 * cm; 9 * cm] 0
                  [Some (VALIGN (0, 0) (-1, -1) "TOP")]%Z ;;
  let elements := (elements ++ [info_table; Spacer 1 (1 * cm)])%list in
  let elements := (elements ++
    [Paragraph "RingraziandoVi per la gentile richiesta, siamo a sottoporre alla Vostra attenzione la nostra migliore offerta:" Normal;
     Spacer 1 (0.5 * cm)])%list in
  r <- ciclo_posizioni (posizioni preventivo) elements 0 ;;
  let '(elements, subtotale_merce) := r in
  summary_table <- tabella (summary_data subtotale_merce (iva_percentuale preventivo))
                     [14 * cm; 4 * cm] 0
                     [Some (VALIGN (0, 0) (-1, -1) "MIDDLE");
                      Some (LINEBELOW (0, 0) (-1, 1) 0.5 grey);
                      Some (LINEABOVE (0, 2) (-1, 2) 1 black);
                      Some (BOTTOMPADDING (0, 0) (-1, -1) 5);
                      Some (TOPPADDING (0, 0) (-1, -1) 5)]%Z ;;
  let elements := (elements ++ [summary_table; Spacer 1 (2 * cm)])%list in
  let elements := (elements ++
    [Paragraph "Timbro e Firma del Cliente per Accettazione" NormalCenter;
     Spacer 1 (0.5 * cm)])%list in
  signature_line <- tabella [[Testo ""]] [8 * cm] 0
                      [Some (LINEBELOW (0, 0) (0, 0) 1 black);
                       Some (ALIGN (0, 0) (-1, -1) "CENTER")]%Z ;;
  let elements := (elements ++ [signature_line; PageBreak])%list in
  Ok (elements ++ legal_elements)%list.

(** Lines 189-391: the story, [elements] as it stands before line 394. *)
Definition storia (preventivo : Preventivo) : esito (list flowable) :=
  logo_element <- carica_logo preventivo ;;
  componi logo_element preventivo.

(** The whole function: the story, then [doc.build] at line 394, then the
    buffer with the bytes of the document. *)
Definition genera_pdf_preventivo (preventivo : Preventivo) : esito string :=
  elements <- storia preventivo ;;
  doc_build elements.

End GeneraPdf.

(** ** The endpoints *)

Record PreventivoInput : Type := mkInput {
  output : Preventivo
}.

(** [StreamingResponse(pdf_buffer, media_type=..., headers=...)]; the body
    holds the bytes of the document. *)
Record StreamingResponse : Type := mkStreaming {
  body : string;
  media_type : string;
  headers : list (string * string)
}.

Record HTTPException : Type := mkHTTPException {
  http_status_code : Z;
  detail : string
}.

(** What a call of an endpoint ends with: the response it returns or the
    [HTTPException] it raises. *)
Inductive risultato : Type :=
| Restituisce (r : StreamingResponse)
| Solleva (e : HTTPException).

(** Whether a text can be encoded as latin-1: every character is below
    U+0100, which in UTF-8 means that no byte is 0xC4 or more. *)
Fixpoint latin1 (s : string) : bool :=
  match s with
  | EmptyString => true
  | String c r => (Nat.ltb (nat_of_ascii c) 196 && latin1 r)%bool
  end.

(** The constructor of [StreamingResponse]: it encodes the names and the
    values of the headers as latin-1, and a text that cannot be encoded
    raises [UnicodeEncodeError], a [ValueError]. *)
Definition streaming_response (body : string) (media_type : string)
    (headers : list (string * string)) : esito StreamingResponse :=
  if forallb (fun kv => (latin1 (fst kv) && latin1 (snd kv))%bool) headers
  then Ok (mkStreaming body media_type headers)
  else Raise ValueError.

Section Endpoints.

Local Open Scope string_scope.
Local Open Scope float_scope.

Variable requests_get : string -> Z -> esito risposta.
Variable markup_ok : string -> bool.
Variable immagine_ok : string -> bool.
Variable doc_build : list flowable -> esito string.

(** [str(e)], the message of an exception. *)
Variable str_eccezione : eccezione -> string.

Definition nome_file (preventivo : Preventivo) : string :=
  "preventivo_" ++ PyStr.replace "/" "-" (numero preventivo) ++ ".pdf".

(** Lines 508-518: everything up to the [return] is inside the [try].
    The traceback printed by the handler leaves no trace in the answer. *)
Definition genera_preventivo_endpoint (data : PreventivoInput) : risultato :=
  match
    (let preventivo := output data in
     pdf_buffer <- genera_pdf_preventivo requests_get markup_ok immagine_ok
                     doc_build preventivo ;;
     let filename := nome_file preventivo in
     let headers := [("Content-Disposition", "inline; filename=" ++ filename)] in
     streaming_response pdf_buffer "application/pdf" headers)
  with
  | Ok r => Restituisce r
  | Raise e =>
      Solleva (mkHTTPException 500
                 ("Errore nella generazione del PDF: " ++ str_eccezione e))
  end.

(** Lines 524-594: the sample quotation; [oggi] is
    [datetime.now().strftime("%d/%m/%Y")]. *)
Definition esempio (oggi : string) : PreventivoInput :=
  mkInput
    (mkPreventivo "1017/2025" oggi
       (mkCliente "MARIO ROSSI" "VIA GARIBALDI 45" "20121 Milano (MI)"
          "VIA GARIBALDI 45 - RISTRUTTURAZIONE APPARTAMENTO")
       (mkAzienda "AbitaLab" "Via dell'Innovazione, 1" "20121 Milano (MI)"
          "P.Iva: 12345678901" "Tel. 02 12345678" "Mail: info@abitalab.it"
          "Sito: www.abitalab.it")
       [mkPosizione 1
          [mkVoce "Costruzione base edificio residenziale"
             None (Some 300) (Some "mq") (Some 800);
           mkVoce "Maggiorazione tipologia villa singola"
             (Some 1%Z) (Some 1) (Some "a corpo") (Some 50000);
           mkVoce "Maggiorazione 3 camere da letto e 2 bagni"
             (Some 1%Z) (Some 1) (Some "a corpo") (Some 25000);
           mkVoce "Maggiorazione stile moderno"
             (Some 1%Z) (Some 1) (Some "a corpo") (Some 20000);
           mkVoce "Impianto fotovoltaico 6kW"
             (Some 1%Z) (Some 1) (Some "a corpo") (Some 15000);
           mkVoce "Riscaldamento a pavimento"
             None (Some 300) (Some "mq") (Some 45)]]
       22).

Definition genera_esempio (oggi : string) : risultato :=
  genera_preventivo_endpoint (esempio oggi).

End Endpoints.

(** ** Reference definitions the properties are stated against *)

Section Riferimento.

Local Open Scope string_scope.

(** Sign and amount in hundredths (rounded half-even) of a finite float. *)
Definition centesimi (x : float) : option (bool * Z) :=
  match Prim2SF x with
  | S754_zero s => Some (s, 0%Z)
  | S754_finite s m e => Some (s, PyFloat.scaled 2 m e)
  | _ => None
  end.

Definition cifra (d : Z) : ascii := ascii_of_nat (48 + Z.to_nat d).

Definition due_cifre (k : Z) : string :=
  String (cifra (k / 10)) (String (cifra (k mod 10)) "").

(** An amount of [n] hundredths written the Italian way: the integer part
    in groups of three digits separated by '.', then ',', exactly two
    decimals, a space and the euro sign. *)
Definition euro_italiano (s : bool) (n : Z) : string :=
  PyFloat.segno s ++ PyFloat.raggruppa "." (PyFloat.cifre (n / 100))
    ++ "," ++ due_cifre (n mod 100) ++ " €".

(** A sum of floats taken in list order, starting from zero. *)
Definition somma (l : list float) : float := fold_left PrimFloat.add l 0%float.

(** What one position contributes: its lines price without error and its
    total is their sum. *)
Definition totale_di (pos : Posizione) (t : float) : Prop :=
  exists ts : list float,
    Forall2 (fun v x => calcola_totale_voce v = Ok x) (voci pos) ts
    /\ t = somma ts.

(** A line the loop over the lines handles without raising: its total is
    computed and its quantity, when present, can be written out. *)
Definition voce_regolare (v : VocePreventivo) : bool :=
  match calcola_totale_voce v with
  | Ok _ =>
      match qta v with
      | Some q => match formatta_numero q with
                  | Ok _ => true
                  | Raise _ => false
                  end
      | None => true
      end
  | Raise _ => false
  end.

(** Floats held by results are compared through their decoding. *)
Definition decodifica (r : esito float) : option spec_float :=
  match r with
  | Ok a => Some (Prim2SF a)
  | Raise _ => None
  end.

(** The effect of the three [replace] calls of [formatta_euro] on one
    character. *)
Definition scambia (c : ascii) : ascii :=
  if Ascii.eqb c "," then "."%char
  else if Ascii.eqb c "." then ","%char
  else if Ascii.eqb c "X" then "."%char
  else c.

Fixpoint mappa (f : ascii -> ascii) (s : string) : string :=
  match s with
  | EmptyString => EmptyString
  | String c r => String (f c) (mappa f r)
  end.

Definition e_cifra (c : ascii) : bool :=
  let n := nat_of_ascii c in (Nat.leb 48 n && Nat.leb n 57)%bool.

Fixpoint solo_cifre (s : string) : bool :=
  match s with
  | EmptyString => true
  | String c r => (e_cifra c && solo_cifre r)%bool
  end.


End Riferimento.

(** ** Further reference definitions *)

Section RiferimentoEsteso.

(** A float that is neither NaN nor an infinity. *)
Definition finito (x : float) : bool :=
  match Prim2SF x with
  | S754_nan | S754_infinity _ => false
  | _ => true
  end.

(** A line the loop over the lines can handle, said on its fields: a
    quantity that is present is finite, and a piece-count that the piece
    rule uses converts to a float. *)
Definition voce_ammessa (v : VocePreventivo) : Prop :=
  (forall q : float, qta v = Some q -> finito q = true)
  /\ (forall (p : float) (n : Z),
        prezzo v = Some p -> um_contiene v "pz" = true -> pz v = Some n ->
        exists x : float, PyFloat.of_int n = Ok x).

(** The drawing calls of the pages that the layout has ended, page by
    page; [corrente] holds the calls of the page being drawn. *)
Fixpoint pagine_chiuse (az : list PageNumCanvas.azione)
    (corrente : list PageNumCanvas.operazione)
  : list (list PageNumCanvas.operazione) :=
  match az with
  | [] => []
  | PageNumCanvas.Disegna o :: r => pagine_chiuse r (corrente ++ [o])
  | PageNumCanvas.FinePagina :: r => corrente :: pagine_chiuse r []
  end.

(** [l] with each element paired with its position, counted from [da]. *)
Fixpoint numerate {A : Type} (da : Z) (l : list A) : list (Z * A) :=
  match l with
  | [] => []
  | x :: r => (da, x) :: numerate (da + 1) r
  end.

Definition e_tabella (f : flowable) : bool :=
  match f with
  | Table _ _ _ _ => true
  | _ => false
  end.

Definition e_salto_pagina (f : flowable) : bool :=
  match f with
  | PageBreak => true
  | _ => false
  end.

(** The characters of a string. *)
Fixpoint caratteri (s : string) : list ascii :=
  match s with
  | EmptyString => []
  | String c r => c :: caratteri r
  end.




(** Every position has at least two lines, and every line is one the loop
    can handle. *)
Definition preventivo_ammesso (p : Preventivo) : Prop :=
  Forall (fun pos => (1 < List.length (voci pos))%nat
                     /\ Forall voce_ammessa (voci pos))
    (posizioni p).

(** The unit of measure a row shows: the text of the line, or nothing when
    it is absent. *)
Definition um_testo (v : VocePreventivo) : string :=
  match um v with
  | Some u => u
  | None => ""%string
  end.

(** The texts of a line that reach the paragraph parser. *)
Definition testi_voce (v : VocePreventivo) : list string :=
  [descrizione v; um_testo v].

(** The texts of a quotation that reach the paragraph parser, the logo
    fallback apart: the seven company lines, the quote block, the client
    block, and the description and the unit of every line. *)
Definition testi_richiesta (p : Preventivo) : list string :=
  ([az_nome (azienda p); az_indirizzo (azienda p); cap_citta (azienda p);
    p_iva (azienda p); telefono (azienda p); email (azienda p);
    sito (azienda p); quote_info p; client_info p]
     ++ flat_map (fun pos => flat_map testi_voce (voci pos)) (posizioni p))%list.

(** An integer [str] writes out: its decimal digits are within the limit. *)
Definition scrivibile (n : Z) : bool :=
  Nat.leb (String.length (PyFloat.cifre (Z.abs n))) int_max_str_digits.

Definition interi_voce (v : VocePreventivo) : list Z :=
  match pz v with
  | Some n => [n]
  | None => []
  end.

(** The integers of a quotation that are written out: the number of every
    position and every piece-count that is present. *)
Definition interi_scritti (p : Preventivo) : list Z :=
  flat_map (fun pos => pos_numero pos :: flat_map interi_voce (voci pos))
    (posizioni p).

End RiferimentoEsteso.

(** * Properties *)

Local Open Scope string_scope.

(** Two results holding floats with different bit patterns are different. *)
Ltac float_diversi :=
  let H := fresh "H" in
  intro H; apply (f_equal decodifica) in H; vm_compute in H; discriminate H.

(** ** The pricing rule *)

Section RegolaPrezzo.

Local Open Scope float_scope.
Local Open Scope string_scope.

Lemma gt_int_10000 (x : float) : PyFloat.gt_int x 10000 = (10000 <? x)%float.
Proof. reflexivity. Qed.

Lemma gt_int_10 (x : float) : PyFloat.gt_int x 10 = (10 <? x)%float.
Proof. reflexivity. Qed.

Lemma um_contiene_some (voce : VocePreventivo) (u marker : string) :
  um voce = Some u ->
  PyStr.contains marker (PyStr.lower u) = true ->
  marker <> "" ->
  um_contiene voce marker = true.
Proof.
  intros Hu Hc Hm. unfold um_contiene. rewrite Hu.
  destruct u as [|c r]; [|exact Hc].
  destruct marker; [congruence|discriminate Hc].
Qed.

Lemma um_contiene_no (voce : VocePreventivo) (u marker : string) :
  um voce = Some u ->
  PyStr.contains marker (PyStr.lower u) = false ->
  um_contiene voce marker = false.
Proof.
  intros Hu Hc. unfold um_contiene. rewrite Hu, Hc. apply andb_false_r.
Qed.

End RegolaPrezzo.

(** C9: with the price absent the computed line total is exactly 0,
    whatever the description, piece-count, quantity and unit of measure
    are, present or absent. *)
Theorem prezzo_assente_totale_zero :
  forall (d : string) (n : option Z) (q : option float) (u : option string),
    calcola_totale_voce (mkVoce d n q u None) = Ok 0%float.
Proof. intros d n q u. reflexivity. Qed.

(** C1, as the code has it: with the price present, 'pz' in the unit of
    measure and the piece-count absent, the total is round(price, 2)
    whether or not a quantity is present; the piece rule leaves the chain
    and reaches the final fallback, not the quantity rule. *)
Theorem pz_senza_pezzi_solo_prezzo :
  forall (voce : VocePreventivo) (p : float) (u : string),
    prezzo voce = Some p ->
    um voce = Some u ->
    PyStr.contains "pz" (PyStr.lower u) = true ->
    pz voce = None ->
    calcola_totale_voce voce = Ok (PyFloat.round p 2).
Proof.
  intros voce p u Hp Hu Hc Hn.
  unfold calcola_totale_voce. rewrite Hp.
  rewrite (um_contiene_some voce u "pz" Hu Hc) by discriminate.
  rewrite Hn. reflexivity.
Qed.

Lemma pz_senza_pezzi_solo_prezzo_es :
  calcola_totale_voce (mkVoce "Maniglie" None (Some 5%float) (Some "Pz") (Some 10%float))
  = Ok (PyFloat.round 10 2).
Proof.
  apply (pz_senza_pezzi_solo_prezzo _ 10%float "Pz"); reflexivity.
Defined.

(** C1 as stated fails: price 10, unit 'pz', no piece-count, quantity 5
    gives 10.0 and not round(10 * 5, 2) = 50.0. *)
Lemma pz_senza_pezzi_ignora_quantita :
  let voce := mkVoce "Maniglie" None (Some 5%float) (Some "pz") (Some 10%float) in
  prezzo voce = Some 10%float /\ qta voce = Some 5%float /\ pz voce = None /\
  um_contiene voce "pz" = true /\
  calcola_totale_voce voce = Ok 10%float /\
  PyFloat.round (10 * 5) 2 = 50%float /\
  calcola_totale_voce voce <> Ok (PyFloat.round (10 * 5) 2).
Proof.
  cbv zeta. repeat split; try reflexivity. float_diversi.
Qed.

(** C2: with price and quantity present and a unit of measure that
    contains 'mq' and neither 'pz' nor 'corpo', the total is round(price, 2)
    when price > 10000 and quantity > 10, and round(price * quantity, 2)
    otherwise; both comparisons are strict, so price 10000 or quantity 10
    is priced per unit; 12000 with 15 gives 12000.0 and 800 with 300 gives
    240000.0. *)
Theorem mq_euristica :
  (forall (voce : VocePreventivo) (p q : float) (u : string),
      prezzo voce = Some p ->
      qta voce = Some q ->
      um voce = Some u ->
      PyStr.contains "mq" (PyStr.lower u) = true ->
      PyStr.contains "pz" (PyStr.lower u) = false ->
      PyStr.contains "corpo" (PyStr.lower u) = false ->
      calcola_totale_voce voce
      = Ok (if (10000 <? p)%float && (10 <? q)%float
            then PyFloat.round p 2
            else PyFloat.round (p * q) 2)
      /\ (p = 10000%float ->
          calcola_totale_voce voce = Ok (PyFloat.round (p * q) 2))
      /\ (q = 10%float ->
          calcola_totale_voce voce = Ok (PyFloat.round (p * q) 2)))
  /\ calcola_totale_voce (mkVoce "" None (Some 15%float) (Some "mq") (Some 12000%float))
     = Ok 12000%float
  /\ calcola_totale_voce (mkVoce "" None (Some 300%float) (Some "mq") (Some 800%float))
     = Ok 240000%float.
Proof.
  split; [|split; reflexivity].
  intros voce p q u Hp Hq Hu Hmq Hpz Hcorpo.
  assert (E : calcola_totale_voce voce
              = Ok (if (10000 <? p)%float && (10 <? q)%float
                    then PyFloat.round p 2
                    else PyFloat.round (p * q) 2)).
  { unfold calcola_totale_voce. rewrite Hp.
    rewrite (um_contiene_no voce u "pz" Hu Hpz).
    rewrite (um_contiene_no voce u "corpo" Hu Hcorpo).
    rewrite (um_contiene_some voce u "mq" Hu Hmq) by discriminate.
    rewrite Hq, gt_int_10000, gt_int_10.
    destruct ((10000 <? p)%float && (10 <? q)%float); reflexivity. }
  split; [exact E|split].
  - intros ->. rewrite E. reflexivity.
  - intros ->. rewrite E.
    replace (10 <? 10)%float with false by reflexivity.
    rewrite andb_false_r. reflexivity.
Qed.

Lemma mq_euristica_es :
  calcola_totale_voce (mkVoce "Pavimento" None (Some 10%float) (Some "MQ") (Some 20000%float))
  = Ok (PyFloat.round (20000 * 10) 2).
Proof.
  refine (proj2 (proj2 (proj1 mq_euristica
            (mkVoce "Pavimento" None (Some 10%float) (Some "MQ") (Some 20000%float))
            20000%float 10%float "MQ" _ _ _ _ _ _)) _); reflexivity.
Defined.

(** C3, as the code has it: with the price present and 'corpo' in the unit
    of measure, the total is round(price, 2) whatever the quantity, as long
    as the unit does not also contain 'pz' with a piece-count present; when
    it does, the piece rule comes first and the total is
    round(price * piece-count, 2). *)
Theorem corpo_solo_prezzo :
  forall (voce : VocePreventivo) (p : float) (u : string),
    prezzo voce = Some p ->
    um voce = Some u ->
    PyStr.contains "corpo" (PyStr.lower u) = true ->
    (PyStr.contains "pz" (PyStr.lower u) = false \/ pz voce = None ->
     calcola_totale_voce voce = Ok (PyFloat.round p 2))
    /\ (forall (n : Z) (x : float),
          PyStr.contains "pz" (PyStr.lower u) = true ->
          pz voce = Some n ->
          PyFloat.of_int n = Ok x ->
          calcola_totale_voce voce = Ok (PyFloat.round (p * x) 2)).
Proof.
  intros voce p u Hp Hu Hcorpo. split.
  - intros [Hpz|Hn].
    + unfold calcola_totale_voce. rewrite Hp.
      rewrite (um_contiene_no voce u "pz" Hu Hpz).
      rewrite (um_contiene_some voce u "corpo" Hu Hcorpo) by discriminate.
      reflexivity.
    + unfold calcola_totale_voce. rewrite Hp.
      destruct (um_contiene voce "pz").
      * rewrite Hn. reflexivity.
      * rewrite (um_contiene_some voce u "corpo" Hu Hcorpo) by discriminate.
        reflexivity.
  - intros n x Hpz Hn Hx.
    unfold calcola_totale_voce. rewrite Hp.
    rewrite (um_contiene_some voce u "pz" Hu Hpz) by discriminate.
    rewrite Hn, Hx. reflexivity.
Qed.

Lemma corpo_solo_prezzo_es :
  calcola_totale_voce (mkVoce "Villa" (Some 1%Z) (Some 7%float) (Some "A Corpo") (Some 50000%float))
  = Ok (PyFloat.round 50000 2).
Proof.
  refine (proj1 (corpo_solo_prezzo
            (mkVoce "Villa" (Some 1%Z) (Some 7%float) (Some "A Corpo") (Some 50000%float))
            50000%float "A Corpo" _ _ _) _);
    [reflexivity | reflexivity | reflexivity | left; reflexivity].
Defined.

(** C3 as stated fails: unit 'pz a corpo' with 3 pieces at price 10 gives
    30.0 and not round(10, 2) = 10.0. *)
Lemma corpo_con_pz_usa_pezzi :
  let voce := mkVoce "Porte" (Some 3%Z) (Some 1%float) (Some "pz a corpo") (Some 10%float) in
  prezzo voce = Some 10%float /\
  um_contiene voce "corpo" = true /\ um_contiene voce "pz" = true /\
  calcola_totale_voce voce = Ok 30%float /\
  PyFloat.round 10 2 = 10%float /\
  calcola_totale_voce voce <> Ok (PyFloat.round 10 2).
Proof.
  cbv zeta. repeat split; try reflexivity. float_diversi.
Qed.

(** ** Currency formatting *)

Section Formato.

Import PyFloat.

Lemma replace_scambia (s : string) :
  PyStr.replace "X" "." (PyStr.replace "." "," (PyStr.replace "," "X" s))
  = mappa scambia s.
Proof.
  induction s as [|c r IH]; [reflexivity|].
  cbn [PyStr.replace mappa]. rewrite IH. f_equal.
  destruct c as [[] [] [] [] [] [] [] []]; reflexivity.
Qed.

Lemma mappa_app (f : ascii -> ascii) (a b : string) :
  mappa f (a ++ b) = mappa f a ++ mappa f b.
Proof.
  induction a as [|c r IH]; [reflexivity|].
  cbn. rewrite IH. reflexivity.
Qed.

Lemma mappa_rev_acc (f : ascii -> ascii) (s acc : string) :
  mappa f (rev_acc s acc) = rev_acc (mappa f s) (mappa f acc).
Proof.
  revert acc. induction s as [|c r IH]; intro acc; [reflexivity|].
  cbn. rewrite IH. reflexivity.
Qed.

(** [ogni_tre] recurses three characters at a time: the statement is
    carried for a string and its extensions by one and two characters. *)
Lemma mappa_ogni_tre (f : ascii -> ascii) (sep : ascii) (s : string) :
  mappa f (ogni_tre sep s) = ogni_tre (f sep) (mappa f s)
  /\ (forall a, mappa f (ogni_tre sep (String a s))
                = ogni_tre (f sep) (mappa f (String a s)))
  /\ (forall a b, mappa f (ogni_tre sep (String a (String b s)))
                  = ogni_tre (f sep) (mappa f (String a (String b s)))).
Proof.
  induction s as [|c r [IH0 [IH1 IH2]]].
  - repeat split; reflexivity.
  - split; [apply IH1|]. split; [intro a; apply IH2|].
    intros a b. destruct r as [|x r'].
    + reflexivity.
    + change (ogni_tre sep (String a (String b (String c (String x r')))))
        with (String a (String b (String c
                (String sep (ogni_tre sep (String x r')))))).
      cbn [mappa].
      change (ogni_tre (f sep)
                (String (f a) (String (f b) (String (f c)
                   (String (f x) (mappa f r'))))))
        with (String (f a) (String (f b) (String (f c)
                (String (f sep) (ogni_tre (f sep) (String (f x) (mappa f r'))))))).
      do 4 f_equal. exact IH0.
Qed.

Lemma mappa_raggruppa (f : ascii -> ascii) (sep : ascii) (d : string) :
  mappa f (raggruppa sep d) = raggruppa (f sep) (mappa f d).
Proof.
  unfold raggruppa.
  rewrite mappa_rev_acc, (proj1 (mappa_ogni_tre f sep _)), mappa_rev_acc.
  reflexivity.
Qed.

Lemma scambia_cifra (c : ascii) : e_cifra c = true -> scambia c = c.
Proof.
  destruct c as [[] [] [] [] [] [] [] []]; (reflexivity || discriminate).
Qed.

Lemma scambia_solo_cifre (s : string) :
  solo_cifre s = true -> mappa scambia s = s.
Proof.
  induction s as [|c r IH]; [reflexivity|].
  cbn. intro H. apply andb_prop in H as [Hc Hr].
  rewrite (scambia_cifra c Hc), (IH Hr). reflexivity.
Qed.

Lemma solo_cifre_uint (u : Decimal.uint) :
  solo_cifre (NilEmpty.string_of_uint u) = true.
Proof. induction u; cbn; auto. Qed.

Lemma solo_cifre_cifre (n : Z) : solo_cifre (cifre n) = true.
Proof.
  unfold cifre, NilZero.string_of_uint.
  destruct (N.to_uint (Z.to_N n)) eqn:E;
    try reflexivity; rewrite <- E; apply solo_cifre_uint.
Qed.

Lemma due_cifre_nat (k : nat) :
  (k < 100)%nat ->
  zfill 2 (cifre (Z.of_nat k)) = due_cifre (Z.of_nat k).
Proof.
  intro H.
  do 100 (destruct k as [|k]; [vm_compute; reflexivity|]).
  lia.
Qed.

Lemma due_cifre_zfill (k : Z) :
  (0 <= k < 100)%Z -> zfill 2 (cifre k) = due_cifre k.
Proof.
  intro H. rewrite <- (Z2Nat.id k) by lia. apply due_cifre_nat. lia.
Qed.

Lemma solo_cifre_app (a b : string) :
  solo_cifre (a ++ b) = (solo_cifre a && solo_cifre b)%bool.
Proof.
  induction a as [|c r IH]; [reflexivity|].
  cbn. rewrite IH. apply andb_assoc.
Qed.

Lemma solo_cifre_zfill (k : nat) (d : string) :
  solo_cifre d = true -> solo_cifre (zfill k d) = true.
Proof.
  intro H. unfold zfill. rewrite solo_cifre_app, H, andb_true_r.
  induction (k - String.length d)%nat; [reflexivity|assumption].
Qed.

Lemma append_assoc (a b c : string) : (a ++ b) ++ c = a ++ b ++ c.
Proof.
  induction a as [|x r IH]; [reflexivity|].
  cbn. rewrite IH. reflexivity.
Qed.

Lemma rev_acc_app (s t acc : string) :
  rev_acc (s ++ t) acc = rev_acc t (rev_acc s acc).
Proof.
  revert acc. induction s as [|x r IH]; intro acc; [reflexivity|].
  cbn. apply IH.
Qed.

Lemma rev_acc_coda (s a b : string) :
  rev_acc s (a ++ b) = rev_acc s a ++ b.
Proof.
  revert a. induction s as [|x r IH]; intro a; [reflexivity|].
  cbn. apply (IH (String x a)).
Qed.

(** Up to three digits stay as they are; a longer run is its head,
    grouped, a separator, and its last three digits. *)
Lemma raggruppa_corto (sep : ascii) (d : string) :
  (String.length d <= 3)%nat -> raggruppa sep d = d.
Proof.
  destruct d as [|a [|b [|c [|x r]]]]; cbn; intro H; try reflexivity. lia.
Qed.

Lemma raggruppa_tre (sep a b c : ascii) (d : string) :
  d <> "" ->
  raggruppa sep (d ++ String a (String b (String c "")))
  = raggruppa sep d ++ String sep (String a (String b (String c ""))).
Proof.
  intro Hd. unfold raggruppa. rewrite rev_acc_app. cbn [rev_acc].
  destruct (rev_acc d "") as [|x r] eqn:E.
  - destruct d as [|y t]; [congruence|].
    cbn in E. change (String y "") with ("" ++ String y "") in E.
    rewrite rev_acc_coda in E. destruct (rev_acc t ""); discriminate E.
  - change (ogni_tre sep (String c (String b (String a (String x r)))))
      with (String c (String b (String a (String sep (ogni_tre sep (String x r)))))).
    cbn [rev_acc].
    change (String sep (String a (String b (String c ""))))
      with ("" ++ String sep (String a (String b (String c "")))).
    rewrite rev_acc_coda. reflexivity.
Qed.

(** Values that are not finite keep Python's names for them. *)
Lemma formatta_euro_non_finito :
  formatta_euro infinity = "inf €" /\ formatta_euro nan = "nan €".
Proof. split; reflexivity. Qed.

Lemma formatta_euro_mappa (v : float) :
  formatta_euro v = mappa scambia (format_f true 2 v ++ " €").
Proof. unfold formatta_euro. apply replace_scambia. Qed.

End Formato.

(** C10: every finite value, of sign [s] and [n] hundredths after rounding,
    is formatted as its integer digits in groups of three separated by '.',
    a ',', exactly two decimals and ' €'; 1234.5 gives "1.234,50 €" and 0
    gives "0,00 €". *)
Theorem formatta_euro_italiano :
  forall (v : float) (s : bool) (n : Z),
    centesimi v = Some (s, n) ->
    formatta_euro v = euro_italiano s n
    /\ String.length (due_cifre (n mod 100)) = 2%nat
    /\ (forall d : string,
          (String.length d <= 3)%nat -> PyFloat.raggruppa "." d = d)
    /\ (forall (d : string) (a b c : ascii),
          d <> "" ->
          PyFloat.raggruppa "." (d ++ String a (String b (String c "")))
          = PyFloat.raggruppa "." d ++ String "." (String a (String b (String c ""))))
    /\ formatta_euro 1234.5 = "1.234,50 €"
    /\ formatta_euro 0 = "0,00 €".
Proof.
  intros v s n Hc.
  split; [|split; [reflexivity|split; [apply raggruppa_corto|
             split; [intros d a b c; apply raggruppa_tre|split; reflexivity]]]].
  rewrite formatta_euro_mappa. unfold centesimi in Hc.
  unfold PyFloat.format_f, euro_italiano.
  destruct (Prim2SF v) as [s0|s0| |s0 m e]; try discriminate Hc.
  - injection Hc as <- <-. destruct s0; reflexivity.
  - injection Hc as <- <-.
    unfold PyFloat.parte_intera, PyFloat.parte_decimale.
    change (10 ^ Z.of_nat 2)%Z with 100%Z.
    rewrite !mappa_app, mappa_raggruppa.
    rewrite (scambia_solo_cifre _ (solo_cifre_cifre _)).
    rewrite (scambia_solo_cifre _ (solo_cifre_zfill 2 _ (solo_cifre_cifre _))).
    rewrite due_cifre_zfill by (apply Z.mod_pos_bound; lia).
    rewrite !append_assoc. destruct s0; reflexivity.
Qed.

Lemma formatta_euro_italiano_es :
  formatta_euro 1234567.891 = euro_italiano false 123456789
  /\ euro_italiano false 123456789 = "1.234.567,89 €".
Proof.
  split; [|reflexivity].
  apply (formatta_euro_italiano 1234567.891 false 123456789). reflexivity.
Defined.

(** ** Aggregation: positions, subtotal, tax *)

(** One step of a computation that went through: the first call returned. *)
Ltac passo H x E :=
  match type of H with
  | bind ?m _ = Ok _ =>
      destruct m as [x|] eqn:E; [cbn [bind] in H|discriminate H]
  end.

Section Aggregazione.

Local Open Scope float_scope.

Variable markup_ok : string -> bool.

Lemma paragraph_ok (text : string) (style : stile) (f : flowable) :
  paragraph markup_ok text style = Ok f ->
  f = Paragraph text style /\ markup_ok text = true.
Proof.
  unfold paragraph. destruct (markup_ok text); [|discriminate].
  intro H. injection H as <-. split; reflexivity.
Qed.


(** The loop over the lines adds each line total, in order, to the
    running total it was started with. *)
Lemma ciclo_voci_somma (numero_pos : Z) (vs : list VocePreventivo) :
  forall (td : list (list cella)) (t0 : float) (primo : bool)
         (righe : list (list cella)) (tot : float),
    ciclo_voci markup_ok numero_pos vs td t0 primo = Ok (righe, tot) ->
    exists ts : list float,
      Forall2 (fun v t => calcola_totale_voce v = Ok t) vs ts
      /\ tot = fold_left PrimFloat.add ts t0.
Proof.
  induction vs as [|voce resto IH]; intros td t0 primo righe tot H.
  - cbn in H. injection H as <- <-. exists []. split; [constructor|reflexivity].
  - cbn [ciclo_voci] in H.
    passo H lab El. passo H t Et. passo H ps Ep. passo H qs Eqt.
    destruct (formatta_prezzo_e_um voce) as [prezzo_str um_str].
    passo H dp Ed. passo H up Eu.
    apply IH in H as [ts [Hts Htot]].
    exists (t :: ts). split; [constructor; assumption|exact Htot].
Qed.

Lemma passo_posizione_somma (pos : Posizione) (els : list flowable) (s0 : float)
    (els' : list flowable) (s : float) :
  passo_posizione markup_ok pos els s0 = Ok (els', s) ->
  exists t : float, totale_di pos t /\ s = s0 + t.
Proof.
  unfold passo_posizione. intro H.
  destruct (ciclo_voci markup_ok (pos_numero pos) (voci pos) [intestazione] 0 true)
    as [[td t]|e] eqn:Ec; [|discriminate H].
  cbn [bind] in H.
  destruct (tabella _ _ _ _) as [tb|e]; [|discriminate H].
  cbn [bind] in H. injection H as _ <-.
  exists t. split; [|reflexivity].
  apply ciclo_voci_somma in Ec as [ts [Hts Ht]].
  exists ts. split; assumption.
Qed.

Lemma ciclo_posizioni_somma (ps : list Posizione) :
  forall (els : list flowable) (s0 : float) (els' : list flowable) (s : float),
    ciclo_posizioni markup_ok ps els s0 = Ok (els', s) ->
    exists tots : list float,
      Forall2 totale_di ps tots /\ s = fold_left PrimFloat.add tots s0.
Proof.
  induction ps as [|pos resto IH]; intros els s0 els' s H.
  - cbn in H. injection H as _ <-. exists []. split; [constructor|reflexivity].
  - cbn [ciclo_posizioni] in H.
    destruct (passo_posizione markup_ok pos els s0) as [[e1 s1]|e] eqn:Ep;
      [|discriminate H].
    cbn [bind fst snd] in H.
    apply passo_posizione_somma in Ep as [t [Ht ->]].
    apply IH in H as [tots [Htots ->]].
    exists (t :: tots). split; [constructor; assumption|reflexivity].
Qed.

(** The elements already in the story are carried along untouched. *)
Lemma passo_posizione_prefisso (pos : Posizione) (els : list flowable) (s0 : float) :
  passo_posizione markup_ok pos els s0
  = match passo_posizione markup_ok pos [] s0 with
    | Ok (nuovi, s) => Ok ((els ++ nuovi)%list, s)
    | Raise e => Raise e
    end.
Proof.
  unfold passo_posizione.
  destruct (ciclo_voci _ _ _ _ _ _) as [[td t]|e]; [|reflexivity].
  cbn [bind]. destruct (tabella _ _ _ _) as [tb|e]; reflexivity.
Qed.

Lemma ciclo_posizioni_prefisso (ps : list Posizione) :
  forall (els : list flowable) (s0 : float),
    ciclo_posizioni markup_ok ps els s0
    = match ciclo_posizioni markup_ok ps [] s0 with
      | Ok (nuovi, s) => Ok ((els ++ nuovi)%list, s)
      | Raise e => Raise e
      end.
Proof.
  induction ps as [|pos resto IH]; intros els s0.
  - cbn. rewrite app_nil_r. reflexivity.
  - cbn [ciclo_posizioni].
    rewrite (passo_posizione_prefisso pos els s0).
    destruct (passo_posizione markup_ok pos [] s0) as [[n1 s1]|e]; [|reflexivity].
    cbn [bind fst snd].
    rewrite (IH (els ++ n1)%list s1), (IH n1 s1).
    destruct (ciclo_posizioni markup_ok resto [] s1) as [[n2 s2]|e]; [|reflexivity].
    rewrite app_assoc. reflexivity.
Qed.

(** What the story holds once the paragraphs of the heading are built:
    the fixed opening, what the positions add, and a fixed closing that
    starts with the totals table. *)
Lemma componi_forma (logo : flowable) (p : Preventivo) (d : list flowable) :
  componi markup_ok logo p = Ok d ->
  exists (testa nuovi : list flowable) (sub : float),
    List.length testa = 6%nat
    /\ (exists (celle : list cella) (w : list float) (r : Z) (c : list comando),
          nth_error testa 0 = Some (Table [Elemento logo :: celle] w r c))
    /\ forallb (fun f => negb (e_salto_pagina f)) testa = true
    /\ List.length (filter e_tabella testa) = 2%nat
    /\ ciclo_posizioni markup_ok (posizioni p) [] 0 = Ok (nuovi, sub)
    /\ d = (testa ++ nuovi
              ++ [Table (summary_data sub (iva_percentuale p))
                    [14 * cm; 4 * cm] 0
                    [VALIGN (0, 0) (-1, -1) "MIDDLE";
                     LINEBELOW (0, 0) (-1, 1) 0.5 grey;
                     LINEABOVE (0, 2) (-1, 2) 1 black;
                     BOTTOMPADDING (0, 0) (-1, -1) 5;
                     TOPPADDING (0, 0) (-1, -1) 5]%Z;
                  Spacer 1 (2 * cm);
                  Paragraph "Timbro e Firma del Cliente per Accettazione" NormalCenter;
                  Spacer 1 (0.5 * cm);
                  Table [[Testo ""]] [8 * cm] 0
                    [LINEBELOW (0, 0) (0, 0) 1 black;
                     ALIGN (0, 0) (-1, -1) "CENTER"]%Z;
                  PageBreak]
              ++ legal_elements)%list.
Proof.
  unfold componi. intro H.
  passo H a1 E1. passo H a2 E2. passo H a3 E3. passo H a4 E4.
  passo H a5 E5. passo H a6 E6. passo H a7 E7.
  unfold tabella in H. cbn [setStyle bind] in H.
  passo H q1 Eq1. passo H q2 Eq2.
  cbn [app] in H.
  rewrite (ciclo_posizioni_prefisso (posizioni p) (_ :: _)) in H.
  destruct (ciclo_posizioni markup_ok (posizioni p) [] 0) as [[nuovi sub]|e];
    [|discriminate H].
  cbn [bind] in H. injection H as <-.
  eexists (_ :: _ :: _ :: _ :: _ :: [_]), nuovi, sub.
  split; [|split; [|split; [|split; [|split]]]].
  6: { cbn [app]. repeat rewrite <- app_assoc. reflexivity. }
  - reflexivity.
  - do 4 eexists. reflexivity.
  - reflexivity.
  - reflexivity.
  - reflexivity.
Qed.

End Aggregazione.

(** C5: when the loop over the positions completes, every position's total
    is the sum, in input order, of the computed totals of its lines, and the
    subtotal (imponibile) is the sum of the position totals; the sums add
    the rounded line totals and round nothing further. *)
Theorem totali_sono_somme :
  forall (markup_ok : string -> bool) (ps : list Posizione)
         (els els' : list flowable) (sub pct : float),
    ciclo_posizioni markup_ok ps els 0%float = Ok (els', sub) ->
    exists tots : list float,
      Forall2 (fun pos t =>
                 exists ts : list float,
                   Forall2 (fun v x => calcola_totale_voce v = Ok x) (voci pos) ts
                   /\ t = somma ts) ps tots
      /\ sub = somma tots
      /\ fst (fst (totali_finali sub pct)) = sub.
Proof.
  intros markup_ok ps els els' sub pct H.
  apply ciclo_posizioni_somma in H as [tots [Htots Hsub]].
  exists tots. split; [exact Htots|split; [exact Hsub|reflexivity]].
Qed.

Lemma totali_sono_somme_es :
  exists tots : list float,
    Forall2 (fun pos t =>
               exists ts : list float,
                 Forall2 (fun v x => calcola_totale_voce v = Ok x) (voci pos) ts
                 /\ t = somma ts)
      [mkPosizione 1
         [mkVoce "Costruzione" None (Some 300%float) (Some "mq") (Some 800%float);
          mkVoce "Villa" (Some 1%Z) (Some 1%float) (Some "a corpo") (Some 50000%float)]]
      tots
    /\ 290000%float = somma tots
    /\ fst (fst (totali_finali 290000 22)) = 290000%float.
Proof.
  eapply (totali_sono_somme (fun _ => true) _ [] _ 290000%float 22%float).
  lazy. reflexivity.
Defined.

(** C4, as the code has it: in every quotation that renders, the totals
    table shows the subtotal [sub] of the positions, the tax
    sub * (percentage / 100) and the grand total sub + sub * (percentage /
    100); neither is rounded before the addition, two decimals appear only
    when each amount is formatted.  With percentage 22.0 and subtotal
    100.00 the tax is 22.00 and the grand total 122.00. *)
Theorem totale_finale_iva_non_arrotondata :
  forall (requests_get : string -> Z -> esito risposta)
         (markup_ok immagine_ok : string -> bool) (p : Preventivo)
         (d : list flowable),
    storia requests_get markup_ok immagine_ok p = Ok d ->
    exists (nuovi : list flowable) (sub : float),
      ciclo_posizioni markup_ok (posizioni p) [] 0%float = Ok (nuovi, sub)
      /\ totali_finali sub (iva_percentuale p)
         = (sub, (sub * (iva_percentuale p / 100))%float,
            (sub + sub * (iva_percentuale p / 100))%float)
      /\ (exists (w : list float) (r : Z) (c : list comando),
            nth_error d (6 + List.length nuovi)
            = Some (Table
                      [[Elemento (Paragraph "Imponibile" TotalsLabel);
                        Elemento (Paragraph (formatta_euro sub) TotalsValue)];
                       [Elemento (Paragraph
                                    ("IVA " ++ PyFloat.format_f false 0 (iva_percentuale p)
                                       ++ "%") TotalsLabel);
                        Elemento (Paragraph
                                    (formatta_euro (sub * (iva_percentuale p / 100))%float)
                                    TotalsValue)];
                       [Elemento (Paragraph "<b>Totale Preventivo</b>" TotalsLabel);
                        Elemento (Paragraph
                                    ("<b>" ++ formatta_euro
                                                (sub + sub * (iva_percentuale p / 100))%float
                                       ++ "</b>") TotalsValue)]] w r c))
      /\ totali_finali 100 22 = (100, 22, 122)%float
      /\ formatta_euro (snd (fst (totali_finali 100 22))) = "22,00 €"
      /\ formatta_euro (snd (totali_finali 100 22)) = "122,00 €".
Proof.
  intros requests_get markup_ok immagine_ok p d H. unfold storia in H.
  destruct (carica_logo requests_get markup_ok immagine_ok p) as [logo|e];
    [|discriminate H].
  cbn [bind] in H.
  apply componi_forma in H as (testa & nuovi & sub & Hl & _ & _ & _ & Hc & ->).
  exists nuovi, sub. split; [exact Hc|]. split; [reflexivity|].
  split; [|repeat split; reflexivity].
  do 3 eexists.
  rewrite nth_error_app2 by lia. rewrite Hl.
  replace (6 + List.length nuovi - 6)%nat with (List.length nuovi + 0)%nat by lia.
  rewrite nth_error_app2 by lia.
  replace (List.length nuovi + 0 - List.length nuovi)%nat with 0%nat by lia.
  reflexivity.
Qed.

(** The example of the sample endpoint cut to its first two lines:
    subtotal 290000.00, tax 63800.00, grand total 353800.00. *)
Lemma totale_finale_iva_non_arrotondata_es :
  exists (nuovi : list flowable) (sub : float),
    ciclo_posizioni (fun _ => true)
      [mkPosizione 1
         [mkVoce "Costruzione" None (Some 300%float) (Some "mq") (Some 800%float);
          mkVoce "Villa" (Some 1%Z) (Some 1%float) (Some "a corpo")
            (Some 50000%float)]] [] 0%float = Ok (nuovi, sub)
    /\ formatta_euro sub = "290.000,00 €"
    /\ formatta_euro (sub * (22 / 100))%float = "63.800,00 €"
    /\ formatta_euro (sub + sub * (22 / 100))%float = "353.800,00 €".
Proof.
  destruct (totale_finale_iva_non_arrotondata
              (fun _ _ => Ok (mkRisposta 200 "png"))
              (fun _ => true) (fun _ => true)
              (mkPreventivo "1017/2025" "30/07/2025"
                 (mkCliente "MARIO ROSSI" "VIA ROMA 123" "20121 Milano (MI)"
                    "VIA ROMA 123")
                 (mkAzienda "AbitaLab" "Via dell'Innovazione, 1" "20121 Milano (MI)"
                    "P.Iva: 12345678901" "Tel. 02 12345678" "Mail: info@abitalab.it"
                    "Sito: www.abitalab.it")
                 [mkPosizione 1
                    [mkVoce "Costruzione" None (Some 300%float) (Some "mq")
                       (Some 800%float);
                     mkVoce "Villa" (Some 1%Z) (Some 1%float) (Some "a corpo")
                       (Some 50000%float)]]
                 22%float)
              _ ltac:(lazy; reflexivity))
    as (nuovi & sub & Hc & _).
  exists nuovi, sub. split; [exact Hc|].
  lazy in Hc. injection Hc as _ Hs.
  rewrite <- Hs. repeat split; reflexivity.
Defined.

(** C4 as stated fails: two lines of 50.00 and 50.25 give the subtotal
    100.25; at 22% the tax computed is about 22.055 and the grand total
    about 122.305, which is not the subtotal plus the tax rounded to two
    decimals. *)
Lemma iva_arrotondata_solo_a_video :
  match ciclo_posizioni (fun _ => true)
          [mkPosizione 1 [mkVoce "a" None None None (Some 50%float);
                          mkVoce "b" None None None (Some 50.25%float)]]
          [] 0%float with
  | Ok (_, sub) =>
      sub = 100.25%float
      /\ snd (totali_finali sub 22) = (100.25 + 100.25 * (22 / 100))%float
      /\ snd (totali_finali sub 22) <> (sub + PyFloat.round (sub * 22 / 100) 2)%float
      /\ snd (totali_finali sub 22) <> (sub + PyFloat.round (sub * (22 / 100)) 2)%float
  | Raise _ => False
  end.
Proof.
  vm_compute.
  repeat split; try reflexivity;
    intro H; apply (f_equal Prim2SF) in H; vm_compute in H; discriminate H.
Qed.

(** ** The position table and its style *)

Section StilePosizione.

Variable markup_ok : string -> bool.

Lemma stile_una_voce (pos : Posizione) :
  (List.length (voci pos) <= 1)%nat ->
  nth_error (stile_posizione pos) 10 = Some None
  /\ setStyle (stile_posizione pos) = Raise TypeError.
Proof.
  intro H. unfold stile_posizione.
  destruct (voci pos) as [|v [|w r]]; cbn in H; try lia;
    split; reflexivity.
Qed.

Lemma stile_piu_voci (pos : Posizione) :
  (1 < List.length (voci pos))%nat ->
  stile_posizione pos
  = (firstn 10 (stile_posizione pos)
       ++ Some (SPAN (0, 1) (0, -2))%Z :: skipn 11 (stile_posizione pos))%list.
Proof.
  intro H. unfold stile_posizione.
  replace (1 <? Z.of_nat (List.length (voci pos)))%Z with true
    by (symmetry; apply Z.ltb_lt; lia).
  reflexivity.
Qed.

(** One position whose step raises stops the loop over the positions. *)
Lemma ciclo_posizioni_fallisce (pos : Posizione) (ps : list Posizione) :
  In pos ps ->
  (forall (els : list flowable) (sub : float),
      exists e : eccezione, passo_posizione markup_ok pos els sub = Raise e) ->
  forall (els : list flowable) (sub : float),
    exists e : eccezione, ciclo_posizioni markup_ok ps els sub = Raise e.
Proof.
  intros Hin Hpos. induction ps as [|q resto IH]; [destruct Hin|].
  intros els sub. cbn [ciclo_posizioni].
  destruct (passo_posizione markup_ok q els sub) as [[e1 s1]|e] eqn:Eq1;
    [|exists e; reflexivity].
  cbn [bind fst snd]. destruct Hin as [->|Hin].
  - destruct (Hpos els sub) as [e He]. congruence.
  - apply IH. exact Hin.
Qed.

(** A story whose loop over the positions raises is not built. *)
Lemma componi_fallisce (logo : flowable) (p : Preventivo) :
  (forall (els : list flowable) (sub : float),
      exists e : eccezione,
        ciclo_posizioni markup_ok (posizioni p) els sub = Raise e) ->
  exists e : eccezione, componi markup_ok logo p = Raise e.
Proof.
  intro H.
  destruct (componi markup_ok logo p) as [d|e] eqn:Ec; [|exists e; reflexivity].
  apply componi_forma in Ec as (_ & nuovi & sub & _ & _ & _ & _ & Hc & _).
  destruct (H [] 0%float) as [e He]. congruence.
Qed.

End StilePosizione.

(** C6, on the code: for a position with at most one line the entry of the
    style list where the position-label span would stand is [None], the
    other twelve commands are the usual ones, and applying the style raises
    [TypeError], so the step of the loop for that position never completes;
    with more than one line the entry is the span from row 1 to row -2 of
    column 0, every line row but the totals row, and the style applies. *)
Theorem span_posizione :
  forall (pos : Posizione),
    ((List.length (voci pos) <= 1)%nat ->
     nth_error (stile_posizione pos) 10 = Some None
     /\ setStyle (stile_posizione pos) = Raise TypeError
     /\ (forall (markup_ok : string -> bool) (els : list flowable) (sub : float),
           exists e : eccezione, passo_posizione markup_ok pos els sub = Raise e)
     /\ forall (requests_get : string -> Z -> esito risposta)
               (markup_ok immagine_ok : string -> bool)
               (doc_build : list flowable -> esito string) (p : Preventivo),
          In pos (posizioni p) ->
          exists e : eccezione,
            genera_pdf_preventivo requests_get markup_ok immagine_ok doc_build p
            = Raise e)
    /\ ((1 < List.length (voci pos))%nat ->
        nth_error (stile_posizione pos) 10 = Some (Some (SPAN (0, 1) (0, -2))%Z)
        /\ exists cmds : list comando,
             setStyle (stile_posizione pos) = Ok cmds
             /\ In (SPAN (0, 1) (0, -2))%Z cmds)
    /\ (firstn 10 (stile_posizione pos)
          ++ skipn 11 (stile_posizione pos))%list
       = [Some (BACKGROUND (0, 0) (-1, 0) (HexColor "#003366"));
          Some (TEXTCOLOR (0, 0) (-1, 0) whitesmoke);
          Some (FONTNAME (0, 0) (-1, 0) "Helvetica-Bold");
          Some (FONTSIZE (0, 0) (-1, -1) 8);
          Some (ALIGN (0, 0) (-1, 0) "CENTER");
          Some (VALIGN (0, 0) (-1, -1) "TOP");
          Some (ALIGN (2, 1) (4, -1) "CENTER");
          Some (ALIGN (5, 1) (-1, -1) "RIGHT");
          Some (BOX (0, 0) (-1, -1) 1 black);
          Some (INNERGRID (0, 0) (-1, -1) 0.25 black);
          Some (SPAN (1, -1) (5, -1));
          Some (LINEABOVE (0, -1) (-1, -1) 1 black)]%Z.
Proof.
  intro pos. split; [|split].
  - intro H. destruct (stile_una_voce pos H) as [Hn Hs].
    split; [exact Hn|split; [exact Hs|]].
    assert (Hp : forall (markup_ok : string -> bool) (els : list flowable)
                        (sub : float),
               exists e : eccezione,
                 passo_posizione markup_ok pos els sub = Raise e).
    { intros markup_ok els sub. unfold passo_posizione.
      destruct (ciclo_voci _ _ _ _ _ _) as [[td t]|e]; [|exists e; reflexivity].
      cbn [bind]. unfold tabella. rewrite Hs. exists TypeError. reflexivity. }
    split; [exact Hp|].
    intros requests_get markup_ok immagine_ok doc_build p Hin.
    unfold genera_pdf_preventivo, storia.
    destruct (carica_logo requests_get markup_ok immagine_ok p) as [logo|e];
      [|exists e; reflexivity].
    cbn [bind].
    destruct (componi_fallisce markup_ok logo p
                (ciclo_posizioni_fallisce markup_ok pos (posizioni p) Hin
                   (Hp markup_ok))) as [e ->].
    exists e. reflexivity.
  - intro H. rewrite (stile_piu_voci pos H). split; [reflexivity|].
    eexists. split; [reflexivity|]. cbn. tauto.
  - reflexivity.
Qed.

(** The quotation shown on the landing page as the request format: one
    position with one 'a corpo' line. *)
Lemma span_posizione_es :
  nth_error
    (stile_posizione
       (mkPosizione 1
          [mkVoce "Costruzione edificio residenziale" (Some 1%Z) (Some 1%float)
             (Some "a corpo") (Some 200000%float)])) 10 = Some None
  /\ setStyle
       (stile_posizione
          (mkPosizione 1
             [mkVoce "Costruzione edificio residenziale" (Some 1%Z) (Some 1%float)
                (Some "a corpo") (Some 200000%float)])) = Raise TypeError
  /\ (forall (markup_ok : string -> bool) (els : list flowable) (sub : float),
        exists e : eccezione,
          passo_posizione markup_ok
            (mkPosizione 1
               [mkVoce "Costruzione edificio residenziale" (Some 1%Z) (Some 1%float)
                  (Some "a corpo") (Some 200000%float)]) els sub = Raise e)
  /\ forall (requests_get : string -> Z -> esito risposta)
            (markup_ok immagine_ok : string -> bool)
            (doc_build : list flowable -> esito string) (p : Preventivo),
       In (mkPosizione 1
             [mkVoce "Costruzione edificio residenziale" (Some 1%Z) (Some 1%float)
                (Some "a corpo") (Some 200000%float)]) (posizioni p) ->
       exists e : eccezione,
         genera_pdf_preventivo requests_get markup_ok immagine_ok doc_build p
         = Raise e.
Proof.
  apply (proj1 (span_posizione _)). cbn. lia.
Defined.

(** ** The logo and its fallback *)

Section Logo.

Variable requests_get : string -> Z -> esito risposta.
Variable markup_ok : string -> bool.
Variable immagine_ok : string -> bool.




(** The logo step raises nothing but what the fallback paragraph raises. *)
Lemma carica_logo_solleva (p : Preventivo) (e : eccezione) :
  carica_logo requests_get markup_ok immagine_ok p = Raise e ->
  e = ValueError /\ markup_ok ("<b>" ++ az_nome (azienda p) ++ "</b>") = false.
Proof.
  unfold carica_logo, try_except, paragraph.
  destruct (requests_get logo_url 10%Z) as [r|e0]; cbn [bind].
  - destruct (status_code r =? 200)%Z.
    + destruct (immagine_ok (content r)); [discriminate|].
      destruct (markup_ok _); [discriminate|].
      intro H. injection H as <-. split; reflexivity.
    + destruct (markup_ok _); [discriminate|].
      intro H. injection H as <-. split; reflexivity.
  - destruct (markup_ok _); [discriminate|].
    intro H. injection H as <-. split; reflexivity.
Qed.

End Logo.



(** ** Deferred page numbering *)

Section Numerazione.

Import PageNumCanvas.

(** While the story is laid out nothing reaches the document: every page
    end adds one snapshot, numbered consecutively. *)
Lemma impaginazione (az : list azione) :
  forall c : canvas,
    let c' := fold_left esegui az c in
    _doc c' = _doc c
    /\ salvato c' = salvato c
    /\ exists nuove : list dizionario,
         pages c' = (pages c ++ nuove)%list
         /\ List.length nuove = conta_pagine az
         /\ map _pageNumber nuove
            = numeri (_pageNumber (attr c)) (List.length nuove).
Proof.
  induction az as [|a az IH]; intro c; cbn zeta.
  - split; [reflexivity|split; [reflexivity|]].
    exists []. rewrite app_nil_r. repeat split; reflexivity.
  - cbn [fold_left]. destruct (IH (esegui c a)) as (Hd & Hs & nuove & Hp & Hl & Hn).
    rewrite Hd, Hs, Hp. destruct a as [o|]; cbn [esegui].
    + split; [reflexivity|split; [reflexivity|]].
      exists nuove. repeat split; assumption.
    + split; [reflexivity|split; [reflexivity|]].
      exists (attr c :: nuove). cbn [showPage _startPage con_attr pages].
      rewrite <- app_assoc. split; [reflexivity|]. split.
      * cbn. rewrite Hl. reflexivity.
      * cbn [map List.length numeri]. f_equal. exact Hn.
Qed.

Lemma ripeti_doc (n : Z) (c : canvas) (page : dizionario) :
  _doc (ripeti n c page)
  = (_doc c ++ [(_code page ++ timbro (_pageNumber page) n)%list])%list
  /\ pages (ripeti n c page) = pages c
  /\ salvato (ripeti n c page) = salvato c
  /\ _code (attr (ripeti n c page)) = [].
Proof.
  unfold ripeti, draw_page_number, drawRightString, disegna, setFont,
    super_showPage, _startPage, con_attr, timbro.
  cbn. rewrite <- app_assoc. repeat split; reflexivity.
Qed.

(** Replaying the snapshots emits one stamped page for each, in order. *)
Lemma ripetizione (n : Z) (ps : list dizionario) :
  forall c : canvas,
    let c' := fold_left (ripeti n) ps c in
    _doc c'
    = (_doc c ++ map (fun p => (_code p ++ timbro (_pageNumber p) n)%list) ps)%list
    /\ pages c' = pages c
    /\ salvato c' = salvato c.
Proof.
  induction ps as [|p ps IH]; intro c; cbn zeta.
  - cbn. rewrite app_nil_r. repeat split; reflexivity.
  - cbn [fold_left map].
    destruct (IH (ripeti n c p)) as (Hd & Hp & Hs).
    destruct (ripeti_doc n c p) as (Rd & Rp & Rs & _).
    rewrite Hd, Hp, Hs, Rd, Rp, Rs, <- app_assoc.
    repeat split; reflexivity.
Qed.

Lemma super_save_doc (c : canvas) :
  _doc (super_save c) = _doc c /\ salvato (super_save c) = true.
Proof.
  unfold super_save. destruct (_code (attr c)); split; reflexivity.
Qed.

End Numerazione.


(** * Further properties *)

(** ** Conversion between [int] and [float] *)

Section ConversioneInteri.

Import PyFloat.

Lemma digits2_pos_log2 (p : positive) :
  Z.pos (digits2_pos p) = (Z.log2 (Z.pos p) + 1)%Z.
Proof.
  assert (E : forall q, digits2_pos q = Pos.size q).
  { induction q as [q IH|q IH|]; cbn; [rewrite IH|rewrite IH|]; reflexivity. }
  rewrite E. destruct p; cbn; lia.
Qed.

Lemma div_half_even_1 (x : Z) : div_half_even x 1 = x.
Proof.
  unfold div_half_even. rewrite Z.div_1_r, Z.mod_1_r. reflexivity.
Qed.

(** The float built for a positive integer below 2^53 decodes to the
    integer shifted to 53 bits. *)
Lemma nearest_intero (n : Z) :
  (0 < n < 2 ^ 53)%Z ->
  Prim2SF (nearest n 1)
  = S754_finite false (Z.to_pos (n * 2 ^ (52 - Z.log2 n))) (Z.log2 n - 52).
Proof.
  intro Hn.
  pose proof (Z.log2_spec n (proj1 Hn)) as [Hlo Hhi].
  pose proof (Z.log2_nonneg n) as Hpos.
  assert (Ht : (Z.log2 n <= 52)%Z).
  { destruct (Z.le_gt_cases (Z.log2 n) 52) as [H|H]; [exact H|].
    assert (2 ^ 53 <= 2 ^ Z.log2 n)%Z by (apply Z.pow_le_mono_r; lia). lia. }
  set (t := Z.log2 n) in *.
  assert (Hq : nearest n 1
               = SF2Prim (S754_finite false (Z.to_pos (n * 2 ^ (52 - t))) (t - 52))).
  { unfold nearest. change (Z.log2 1) with 0%Z. rewrite Z.sub_0_r. fold t.
    replace (0 <=? t)%Z with true by (symmetry; apply Z.leb_le; lia).
    replace (1 * 2 ^ t <=? n)%Z with true by (symmetry; apply Z.leb_le; lia).
    destruct (Z.leb_spec 0 (t - 52)) as [H|H].
    - assert (t = 52)%Z by lia. subst t.
      replace (Z.log2 n) with 52%Z by lia.
      change (1 * 2 ^ (52 - 52))%Z with 1%Z.
      rewrite div_half_even_1. change (2 ^ (52 - 52))%Z with 1%Z.
      rewrite Z.mul_1_r. reflexivity.
    - rewrite div_half_even_1. replace (- (t - 52))%Z with (52 - t)%Z by lia.
      reflexivity. }
  rewrite Hq. apply Prim2SF_SF2Prim.
  assert (Hl : Z.log2 (n * 2 ^ (52 - t)) = 52%Z).
  { rewrite Z.log2_mul_pow2 by lia. fold t. lia. }
  assert (Hqpos : (0 < n * 2 ^ (52 - t))%Z).
  { apply Z.mul_pos_pos; [lia|]. apply Z.pow_pos_nonneg; lia. }
  unfold SpecFloat.valid_binary, bounded, canonical_mantissa, fexp.
  rewrite digits2_pos_log2, Z2Pos.id, Hl by exact Hqpos.
  apply andb_true_intro. split.
  - apply Z.eqb_eq. unfold SpecFloat.emin, prec, emax. lia.
  - apply Z.leb_le. unfold prec, emax. lia.
Qed.

Lemma is_infinity_finito (f : float) (s : bool) (m : positive) (e : Z) :
  Prim2SF f = S754_finite s m e -> is_infinity f = false.
Proof.
  intro H. unfold is_infinity. rewrite eqb_spec, abs_spec, H. reflexivity.
Qed.

Lemma of_int_to_int (n : Z) :
  (Z.abs n < 2 ^ 53)%Z ->
  exists x : float, of_int n = Ok x /\ to_int x = Ok n.
Proof.
  intro Hn. unfold of_int.
  destruct (Z.eqb_spec n 0) as [->|Hz]; [exists 0%float; split; reflexivity|].
  assert (Ha : (0 < Z.abs n < 2 ^ 53)%Z) by lia.
  pose proof (nearest_intero (Z.abs n) Ha) as Hp.
  rewrite (is_infinity_finito _ _ _ _ Hp).
  eexists. split; [reflexivity|].
  pose proof (Z.log2_spec (Z.abs n) (proj1 Ha)) as [Hlo Hhi].
  pose proof (Z.log2_nonneg (Z.abs n)) as Hpos.
  assert (Ht : (Z.log2 (Z.abs n) <= 52)%Z).
  { destruct (Z.le_gt_cases (Z.log2 (Z.abs n)) 52) as [H|H]; [exact H|].
    assert (2 ^ 53 <= 2 ^ Z.log2 (Z.abs n))%Z by (apply Z.pow_le_mono_r; lia). lia. }
  set (t := Z.log2 (Z.abs n)) in *.
  assert (Hqpos : (0 < Z.abs n * 2 ^ (52 - t))%Z).
  { apply Z.mul_pos_pos; [lia|]. apply Z.pow_pos_nonneg; lia. }
  assert (Hval : (if (0 <=? t - 52)%Z
                  then Z.pos (Z.to_pos (Z.abs n * 2 ^ (52 - t))) * 2 ^ (t - 52)
                  else Z.pos (Z.to_pos (Z.abs n * 2 ^ (52 - t))) / 2 ^ (- (t - 52)))%Z
                 = Z.abs n).
  { rewrite Z2Pos.id by exact Hqpos.
    destruct (Z.leb_spec 0 (t - 52)) as [H|H].
    - replace (t - 52)%Z with 0%Z by lia. replace (52 - t)%Z with 0%Z by lia.
      change (2 ^ 0)%Z with 1%Z. lia.
    - replace (- (t - 52))%Z with (52 - t)%Z by lia.
      apply Z.div_mul. apply Z.pow_nonzero; lia. }
  unfold to_int, neg_if.
  destruct (Z.ltb_spec n 0) as [Hneg|Hnn].
  - rewrite opp_spec, Hp. cbn [SFopp negb]. rewrite Hval. f_equal. lia.
  - rewrite Hp. rewrite Hval. f_equal. lia.
Qed.

End ConversioneInteri.

(** ** The pricing rule: piece rule, default rule, errors, letter case *)

(** Only a piece-count too large for a float makes the conversion fail. *)
Lemma of_int_solo_overflow (n : Z) (e : eccezione) :
  PyFloat.of_int n = Raise e -> e = OverflowError /\ (2 ^ 53 <= Z.abs n)%Z.
Proof.
  intro H. split.
  - unfold PyFloat.of_int in H.
    destruct (n =? 0)%Z; [discriminate H|].
    destruct (is_infinity _); [|discriminate H]. congruence.
  - destruct (Z.lt_ge_cases (Z.abs n) (2 ^ 53)) as [Hs|Hs]; [|exact Hs].
    destruct (of_int_to_int n Hs) as (x & Hx & _). congruence.
Qed.

(** X1: the piece rule: with the price present, 'pz' in the unit of measure
    and a piece-count present, the total is round(price * pieces, 2)
    whatever the quantity and the other markers in the unit; the only
    failure is OverflowError for a piece-count that no float holds, and a
    piece-count below 2^53 in magnitude is multiplied exactly as it is. *)
Theorem regola_pezzi :
  forall (voce : VocePreventivo) (p : float) (u : string) (n : Z),
    prezzo voce = Some p ->
    um voce = Some u ->
    PyStr.contains "pz" (PyStr.lower u) = true ->
    pz voce = Some n ->
    (calcola_totale_voce voce = Raise OverflowError
     \/ exists x : float,
          PyFloat.of_int n = Ok x
          /\ calcola_totale_voce voce = Ok (PyFloat.round (p * x) 2))
    /\ ((Z.abs n < 2 ^ 53)%Z ->
        exists x : float,
          PyFloat.of_int n = Ok x /\ PyFloat.to_int x = Ok n
          /\ calcola_totale_voce voce = Ok (PyFloat.round (p * x) 2)).
Proof.
  intros voce p u n Hp Hu Hc Hn.
  assert (E : calcola_totale_voce voce
              = (x <- PyFloat.of_int n ;; Ok (PyFloat.round (p * x) 2))).
  { unfold calcola_totale_voce. rewrite Hp.
    rewrite (um_contiene_some voce u "pz" Hu Hc) by discriminate.
    rewrite Hn. reflexivity. }
  split.
  - destruct (PyFloat.of_int n) as [x|e] eqn:Ex.
    + right. exists x. split; [reflexivity|exact E].
    + left. rewrite E. cbn [bind].
      destruct (of_int_solo_overflow n e Ex) as [-> _]. reflexivity.
  - intro Hs. destruct (of_int_to_int n Hs) as (x & Hx & Hr).
    exists x. split; [exact Hx|split; [exact Hr|]].
    rewrite E, Hx. reflexivity.
Qed.

Lemma regola_pezzi_es :
  exists x : float,
    PyFloat.of_int 4 = Ok x /\ PyFloat.to_int x = Ok 4%Z
    /\ calcola_totale_voce
         (mkVoce "Finestre" (Some 4%Z) (Some 9%float) (Some "Pz") (Some 350.5%float))
       = Ok (PyFloat.round (350.5 * x) 2).
Proof.
  refine (proj2 (regola_pezzi
            (mkVoce "Finestre" (Some 4%Z) (Some 9%float) (Some "Pz") (Some 350.5%float))
            350.5%float "Pz" 4%Z _ _ _ _) _);
    [reflexivity | reflexivity | reflexivity | reflexivity | cbn; lia].
Defined.

(** X2: the default rule: with the price present and a unit of measure that is
    absent, empty, or contains none of 'pz', 'corpo', 'mq' in any letter
    case, the total is round(price * quantity, 2) when the quantity is
    present and round(price, 2) when it is absent; the piece-count is not
    read.  An 'mq' unit with no quantity also gives round(price, 2). *)
Theorem regola_predefinita :
  forall (voce : VocePreventivo) (p : float),
    prezzo voce = Some p ->
    ((um voce = None \/ um voce = Some ""
      \/ exists u : string,
           um voce = Some u
           /\ PyStr.contains "pz" (PyStr.lower u) = false
           /\ PyStr.contains "corpo" (PyStr.lower u) = false
           /\ PyStr.contains "mq" (PyStr.lower u) = false) ->
     calcola_totale_voce voce
     = Ok (match qta voce with
           | Some q => PyFloat.round (p * q) 2
           | None => PyFloat.round p 2
           end))
    /\ (forall u : string,
          um voce = Some u ->
          PyStr.contains "pz" (PyStr.lower u) = false ->
          PyStr.contains "corpo" (PyStr.lower u) = false ->
          PyStr.contains "mq" (PyStr.lower u) = true ->
          qta voce = None ->
          calcola_totale_voce voce = Ok (PyFloat.round p 2)).
Proof.
  intros voce p Hp. split.
  - intro H.
    assert (E : forall m, m = "pz" \/ m = "corpo" \/ m = "mq" ->
                          um_contiene voce m = false).
    { intros m Hm. unfold um_contiene.
      destruct H as [->|[->|(u & -> & H1 & H2 & H3)]]; try reflexivity.
      destruct Hm as [->|[->| ->]];
        [rewrite H1|rewrite H2|rewrite H3]; apply andb_false_r. }
    unfold calcola_totale_voce. rewrite Hp.
    rewrite (E "pz"), (E "corpo"), (E "mq") by tauto.
    destruct (qta voce); reflexivity.
  - intros u Hu H1 H2 H3 Hq.
    unfold calcola_totale_voce. rewrite Hp.
    rewrite (um_contiene_no voce u "pz" Hu H1).
    rewrite (um_contiene_no voce u "corpo" Hu H2).
    rewrite (um_contiene_some voce u "mq" Hu H3) by discriminate.
    rewrite Hq. reflexivity.
Qed.

Lemma regola_predefinita_es :
  calcola_totale_voce
    (mkVoce "Battiscopa" (Some 7%Z) (Some 12.5%float) (Some "ml") (Some 8%float))
  = Ok (PyFloat.round (8 * 12.5) 2).
Proof.
  refine (proj1 (regola_predefinita
            (mkVoce "Battiscopa" (Some 7%Z) (Some 12.5%float) (Some "ml") (Some 8%float))
            8%float _) _);
    [reflexivity|].
  right. right. exists "ml". repeat split; reflexivity.
Defined.

(** X3: the only error of the pricing function: OverflowError, raised by the
    piece rule alone, for a piece-count of magnitude 2^53 or more.  A line
    with no price, no piece-count, or no 'pz' in its unit always gets a
    total. *)
Theorem calcola_totale_voce_errori :
  forall (voce : VocePreventivo) (e : eccezione),
    calcola_totale_voce voce = Raise e ->
    e = OverflowError
    /\ um_contiene voce "pz" = true
    /\ exists (p : float) (n : Z),
         prezzo voce = Some p /\ pz voce = Some n /\ (2 ^ 53 <= Z.abs n)%Z.
Proof.
  intros voce e H. unfold calcola_totale_voce in H.
  destruct (prezzo voce) as [p|]; [|discriminate H].
  destruct (um_contiene voce "pz").
  - destruct (pz voce) as [n|]; [|discriminate H].
    destruct (PyFloat.of_int n) as [x|e'] eqn:Ex; [discriminate H|].
    cbn [bind] in H. injection H as <-.
    destruct (of_int_solo_overflow n e' Ex) as [-> Hn].
    split; [reflexivity|split; [reflexivity|]].
    exists p, n. repeat split. exact Hn.
  - destruct (um_contiene voce "corpo"); [discriminate H|].
    destruct (um_contiene voce "mq");
      destruct (qta voce) as [q|]; try discriminate H.
    destruct (PyFloat.gt_int p 10000 && PyFloat.gt_int q 10); discriminate H.
Qed.

Lemma calcola_totale_voce_errori_es :
  OverflowError = OverflowError
  /\ um_contiene
       (mkVoce "Viti" (Some (2 ^ 1024)%Z) None (Some "pz") (Some 0.01%float)) "pz"
     = true
  /\ exists (p : float) (n : Z),
       Some 0.01%float = Some p /\ Some (2 ^ 1024)%Z = Some n
       /\ (2 ^ 53 <= Z.abs n)%Z.
Proof.
  apply (calcola_totale_voce_errori
           (mkVoce "Viti" (Some (2 ^ 1024)%Z) None (Some "pz") (Some 0.01%float))
           OverflowError).
  vm_compute. reflexivity.
Defined.

(** X4: letter case is immaterial: two lines that differ only in the case of
    the letters of the unit of measure (and in the description) get the
    same total. *)
Theorem calcola_totale_voce_maiuscole :
  forall (d d' : string) (n : option Z) (q p : option float) (u u' : string),
    PyStr.lower u = PyStr.lower u' ->
    calcola_totale_voce (mkVoce d n q (Some u) p)
    = calcola_totale_voce (mkVoce d' n q (Some u') p).
Proof.
  intros d d' n q p u u' H.
  assert (E : forall m, um_contiene (mkVoce d n q (Some u) p) m
                        = um_contiene (mkVoce d' n q (Some u') p) m).
  { intro m. unfold um_contiene. cbn [um]. rewrite H. f_equal.
    destruct u, u'; try reflexivity; discriminate H. }
  unfold calcola_totale_voce. cbn [prezzo pz qta]. rewrite !E. reflexivity.
Qed.

Lemma calcola_totale_voce_maiuscole_es :
  calcola_totale_voce (mkVoce "a" None (Some 15%float) (Some "MQ") (Some 12000%float))
  = calcola_totale_voce (mkVoce "b" None (Some 15%float) (Some "mq") (Some 12000%float)).
Proof.
  apply calcola_totale_voce_maiuscole. reflexivity.
Defined.

(** ** Plain number formatting *)

Section FormatoNumero.

Import PyFloat.

Lemma replace_app (old new : ascii) (a b : string) :
  PyStr.replace old new (a ++ b)
  = PyStr.replace old new a ++ PyStr.replace old new b.
Proof.
  induction a as [|c r IH]; [reflexivity|].
  cbn. rewrite IH. reflexivity.
Qed.

Lemma replace_punto_cifre (s : string) :
  solo_cifre s = true -> PyStr.replace "." "," s = s.
Proof.
  induction s as [|c r IH]; [reflexivity|].
  cbn. intro H. apply andb_prop in H as [Hc Hr]. rewrite (IH Hr). f_equal.
  destruct c as [[] [] [] [] [] [] [] []]; (reflexivity || discriminate Hc).
Qed.

Lemma str_int_segno (s : bool) (a : Z) :
  (0 < a)%Z ->
  str_int (if s then - a else a) = segno s ++ cifre a.
Proof.
  intro H. unfold str_int. destruct s.
  - replace (- a <? 0)%Z with true by (symmetry; apply Z.ltb_lt; lia).
    rewrite Z.abs_opp, Z.abs_eq by lia. reflexivity.
  - replace (a <? 0)%Z with false by (symmetry; apply Z.ltb_ge; lia).
    rewrite Z.abs_eq by lia. reflexivity.
Qed.

End FormatoNumero.

(** X6: how a quantity is written: NaN raises ValueError and an infinity
    OverflowError; a zero is "0"; a whole number is written as the integer
    it is, with no decimals; any other value is written with its sign, its
    integer digits, a comma and exactly two decimals, rounded half-even. *)
Theorem formatta_numero_casi :
  (forall v : float,
    match Prim2SF v with
    | S754_nan => formatta_numero v = Raise ValueError
    | S754_infinity _ => formatta_numero v = Raise OverflowError
    | S754_zero _ => formatta_numero v = Ok "0"
    | S754_finite s m e =>
        if (0 <=? e)%Z
        then formatta_numero v
             = Ok (PyFloat.segno s ++ PyFloat.cifre (Z.pos m * 2 ^ e))
        else if (Z.pos m mod 2 ^ (- e) =? 0)%Z
        then formatta_numero v
             = Ok (PyFloat.segno s ++ PyFloat.cifre (Z.pos m / 2 ^ (- e)))
        else formatta_numero v
             = Ok (PyFloat.segno s
                     ++ PyFloat.cifre (PyFloat.scaled 2 m e / 100)
                     ++ "," ++ due_cifre (PyFloat.scaled 2 m e mod 100))
    end)
  /\ formatta_numero 300 = Ok "300"
  /\ formatta_numero 300.5 = Ok "300,50"
  /\ formatta_numero (-0.125) = Ok "-0,12".
Proof.
  split; [|repeat split; reflexivity].
  intro v. unfold formatta_numero, PyFloat.to_int, PyFloat.eq_int.
  destruct (Prim2SF v) as [s|s| |s m e] eqn:Hv; try reflexivity.
  cbn [bind].
  destruct (Z.leb_spec 0 e) as [He|He].
  - assert (Hp : (0 < Z.pos m * 2 ^ e)%Z).
    { apply Z.mul_pos_pos; [lia|]. apply Z.pow_pos_nonneg; lia. }
    replace ((if s then Z.neg m else Z.pos m) * 2 ^ e
             =? (if s then - (Z.pos m * 2 ^ e) else Z.pos m * 2 ^ e))%Z
      with true by (symmetry; apply Z.eqb_eq; destruct s; lia).
    rewrite (str_int_segno s _ Hp). reflexivity.
  - assert (Hk : (0 < 2 ^ (- e))%Z) by (apply Z.pow_pos_nonneg; lia).
    pose proof (Z.div_mod (Z.pos m) (2 ^ (- e)) ltac:(lia)) as Hdm.
    pose proof (Z.mod_pos_bound (Z.pos m) (2 ^ (- e)) Hk) as Hmb.
    destruct (Z.eqb_spec (Z.pos m mod 2 ^ (- e)) 0) as [Hz|Hz].
    + assert (Hp : (0 < Z.pos m / 2 ^ (- e))%Z) by nia.
      replace ((if s then Z.neg m else Z.pos m)
               =? (if s then - (Z.pos m / 2 ^ (- e)) else Z.pos m / 2 ^ (- e))
                  * 2 ^ (- e))%Z
        with true by (symmetry; apply Z.eqb_eq; destruct s; nia).
      rewrite (str_int_segno s _ Hp). reflexivity.
    + replace ((if s then Z.neg m else Z.pos m)
               =? (if s then - (Z.pos m / 2 ^ (- e)) else Z.pos m / 2 ^ (- e))
                  * 2 ^ (- e))%Z
        with false by (symmetry; apply Z.eqb_neq; destruct s; nia).
      unfold PyFloat.format_f. rewrite Hv.
      unfold PyFloat.parte_intera, PyFloat.parte_decimale.
      change (10 ^ Z.of_nat 2)%Z with 100%Z.
      rewrite !replace_app.
      rewrite (replace_punto_cifre _ (solo_cifre_cifre _)).
      rewrite (replace_punto_cifre _ (solo_cifre_zfill 2 _ (solo_cifre_cifre _))).
      rewrite due_cifre_zfill by (apply Z.mod_pos_bound; lia).
      destruct s; reflexivity.
Qed.

(** ** The table of a position *)

Section TabellaPosizione.

Local Open Scope float_scope.

Variable markup_ok : string -> bool.

Lemma um_str_vero (u : string) : (if PyStr.truthy u then u else "") = u.
Proof. destruct u; reflexivity. Qed.

Lemma um_str_testo (v : VocePreventivo) :
  snd (formatta_prezzo_e_um v) = um_testo v.
Proof.
  unfold formatta_prezzo_e_um, um_testo.
  destruct (prezzo v); destruct (um v) as [u|]; cbn [snd];
    rewrite ?um_str_vero; reflexivity.
Qed.




End TabellaPosizione.



(** ** The story as a whole *)

Section Storia.

Local Open Scope float_scope.

Variable markup_ok : string -> bool.

Lemma passo_posizione_forma (pos : Posizione) (els els' : list flowable)
    (s s' : float) :
  passo_posizione markup_ok pos els s = Ok (els', s') ->
  exists (tb : flowable) (w h : float),
    els' = (els ++ [tb; Spacer w h])%list /\ e_tabella tb = true.
Proof.
  unfold passo_posizione, tabella. intro H.
  destruct (ciclo_voci _ _ _ _ _ _) as [[td t]|e]; [|discriminate H].
  cbn [bind] in H.
  destruct (setStyle _) as [cmds|e]; [|discriminate H].
  cbn [bind] in H. injection H as <- _.
  do 3 eexists. split; reflexivity.
Qed.

Lemma ciclo_posizioni_forma (ps : list Posizione) :
  forall (els els' : list flowable) (s s' : float),
    ciclo_posizioni markup_ok ps els s = Ok (els', s') ->
    exists nuovi : list flowable,
      els' = (els ++ nuovi)%list
      /\ List.length nuovi = (2 * List.length ps)%nat
      /\ forallb (fun f => negb (e_salto_pagina f)) nuovi = true
      /\ List.length (filter e_tabella nuovi) = List.length ps.
Proof.
  induction ps as [|pos resto IH]; intros els els' s s' H.
  - cbn in H. injection H as <- _. exists []. rewrite app_nil_r.
    repeat split; reflexivity.
  - cbn [ciclo_posizioni] in H.
    destruct (passo_posizione markup_ok pos els s) as [[e1 s1]|e] eqn:Ep;
      [|discriminate H].
    cbn [bind fst snd] in H.
    apply passo_posizione_forma in Ep as (tb & w & h & -> & Htb).
    apply IH in H as (nuovi & -> & Hl & Hb & Hf).
    exists (tb :: Spacer w h :: nuovi). rewrite <- app_assoc.
    split; [reflexivity|]. split; [cbn [List.length]; lia|]. split.
    + cbn [forallb]. rewrite Hb. destruct tb; try discriminate Htb. reflexivity.
    + cbn [filter]. rewrite Htb. cbn [e_tabella List.length]. rewrite Hf.
      reflexivity.
Qed.

End Storia.

(** X8: the story of every quotation that renders: six opening elements, a
    table and a spacer for each position, and a fixed closing, 20 + 2n
    elements in all with 4 + n tables; the only page break comes right
    before the legal texts, which end the story. *)
Theorem storia_struttura :
  forall (requests_get : string -> Z -> esito risposta)
         (markup_ok immagine_ok : string -> bool) (p : Preventivo)
         (d : list flowable),
    storia requests_get markup_ok immagine_ok p = Ok d ->
    List.length d = (20 + 2 * List.length (posizioni p))%nat
    /\ List.length (filter e_tabella d) = (4 + List.length (posizioni p))%nat
    /\ exists testa : list flowable,
         d = (testa ++ PageBreak :: legal_elements)%list
         /\ forallb (fun f => negb (e_salto_pagina f)) testa = true.
Proof.
  intros requests_get markup_ok immagine_ok p d H. unfold storia in H.
  destruct (carica_logo requests_get markup_ok immagine_ok p) as [logo|e];
    [|discriminate H].
  cbn [bind] in H.
  apply componi_forma in H as (testa & nuovi & sub & Hl & _ & Hs & Ht & Hc & ->).
  apply ciclo_posizioni_forma in Hc as (nuovi' & Hn & Hln & Hb & Hf).
  cbn [app] in Hn. subst nuovi'.
  split; [|split].
  - rewrite !length_app, Hl, Hln. unfold legal_elements. cbn [List.length]. lia.
  - rewrite !filter_app, !length_app, Ht, Hf. unfold legal_elements.
    cbn [filter e_tabella List.length]. lia.
  - eexists (testa ++ nuovi ++ [_; _; _; _; _])%list.
    split.
    + rewrite <- !app_assoc. cbn [app]. reflexivity.
    + rewrite !forallb_app, Hs, Hb. reflexivity.
Qed.

Lemma storia_struttura_es :
  exists d : list flowable,
    List.length d = 22%nat
    /\ List.length (filter e_tabella d) = 5%nat
    /\ exists testa : list flowable,
         d = (testa ++ PageBreak :: legal_elements)%list
         /\ forallb (fun f => negb (e_salto_pagina f)) testa = true.
Proof.
  eexists.
  apply (storia_struttura (fun _ _ => Ok (mkRisposta 404 ""))
           (fun _ => true) (fun _ => true)
           (mkPreventivo "12" "01/02/2025"
              (mkCliente "N" "I" "C" "K")
              (mkAzienda "A" "B" "C" "D" "E" "F" "G")
              [mkPosizione 1
                 [mkVoce "x" None None None (Some 1%float);
                  mkVoce "y" None None None None]]
              22%float)).
  lazy. reflexivity.
Defined.

(** ** When the story is built *)

(** The next call of a computation returns: what is left to show is that
    the rest does. *)
Ltac avanti :=
  match goal with
  | |- exists _, bind ?m _ = Ok _ =>
      let x := fresh "x" in
      let E := fresh "E" in
      assert (E : exists x, m = Ok x);
      [|destruct E as [x ->]; cbn [bind]]
  end.

Section Riuscita.

Variable markup_ok : string -> bool.

Lemma calcola_solleva (voce : VocePreventivo) (e : eccezione) :
  calcola_totale_voce voce = Raise e ->
  um_contiene voce "pz" = true
  /\ exists (p : float) (n : Z),
       prezzo voce = Some p /\ pz voce = Some n /\ PyFloat.of_int n = Raise e.
Proof.
  intro H. unfold calcola_totale_voce in H.
  destruct (prezzo voce) as [p|]; [|discriminate H].
  destruct (um_contiene voce "pz").
  - destruct (pz voce) as [n|]; [|discriminate H].
    destruct (PyFloat.of_int n) as [x|e'] eqn:Ex; [discriminate H|].
    cbn [bind] in H. injection H as <-.
    split; [reflexivity|]. exists p, n. repeat split. exact Ex.
  - destruct (um_contiene voce "corpo"); [discriminate H|].
    destruct (um_contiene voce "mq");
      destruct (qta voce) as [q|]; try discriminate H.
    destruct (PyFloat.gt_int p 10000 && PyFloat.gt_int q 10)%bool; discriminate H.
Qed.

Lemma formatta_numero_finito (q : float) :
  (exists s : string, formatta_numero q = Ok s) <-> finito q = true.
Proof.
  unfold formatta_numero, PyFloat.to_int, finito.
  destruct (Prim2SF q) as [s|s| |s m e]; cbn [bind]; split.
  - reflexivity.
  - intros _. destruct (PyFloat.eq_int q 0); eexists; reflexivity.
  - intros [x Hx]. discriminate Hx.
  - discriminate.
  - intros [x Hx]. discriminate Hx.
  - discriminate.
  - reflexivity.
  - intros _.
    match goal with
    | |- context [PyFloat.eq_int q ?n] =>
        destruct (PyFloat.eq_int q n); eexists; reflexivity
    end.
Qed.

Lemma voce_regolare_ammessa (v : VocePreventivo) :
  voce_regolare v = true <-> voce_ammessa v.
Proof.
  unfold voce_regolare, voce_ammessa. split.
  - intro H. destruct (calcola_totale_voce v) as [t|e] eqn:Et; [|discriminate H].
    split.
    + intros q Hq. rewrite Hq in H. apply formatta_numero_finito.
      destruct (formatta_numero q) as [s|e]; [|discriminate H].
      exists s. reflexivity.
    + intros p n Hp Hu Hn. unfold calcola_totale_voce in Et.
      rewrite Hp, Hu, Hn in Et.
      destruct (PyFloat.of_int n) as [x|e]; [|discriminate Et].
      exists x. reflexivity.
  - intros [Hq Hn].
    destruct (calcola_totale_voce v) as [t|e] eqn:Et.
    + destruct (qta v) as [q|]; [|reflexivity].
      destruct (proj2 (formatta_numero_finito q) (Hq q eq_refl)) as [s ->].
      reflexivity.
    + apply calcola_solleva in Et as (Hu & p & n & Hp & Hpz & He).
      destruct (Hn p n Hp Hu Hpz) as [x Hx]. congruence.
Qed.

Lemma scrivibile_str (n : Z) :
  str_int_py n = if scrivibile n then Ok (PyFloat.str_int n) else Raise ValueError.
Proof.
  unfold str_int_py, scrivibile. rewrite Nat.leb_antisym.
  destruct (Nat.ltb int_max_str_digits _); reflexivity.
Qed.

(** *** What a story that is built tells about the quotation *)

Lemma ciclo_voci_esito (numero_pos : Z) (vs : list VocePreventivo) :
  forall (td : list (list cella)) (t0 : float) (primo : bool)
         (r : list (list cella) * float),
    ciclo_voci markup_ok numero_pos vs td t0 primo = Ok r ->
    Forall voce_ammessa vs
    /\ forallb markup_ok (flat_map testi_voce vs) = true
    /\ forallb scrivibile (flat_map interi_voce vs) = true
    /\ (primo = true -> vs <> [] -> scrivibile numero_pos = true).
Proof.
  induction vs as [|voce resto IH]; intros td t0 primo r H.
  - split; [constructor|]. split; [reflexivity|]. split; [reflexivity|].
    intros _ Hn. destruct (Hn eq_refl).
  - cbn [ciclo_voci] in H.
    passo H lab El. passo H t Et. passo H ps Ep. passo H qs Eqt.
    pose proof (um_str_testo voce) as Hu.
    destruct (formatta_prezzo_e_um voce) as [prezzo_str um_str].
    cbn [snd] in Hu. subst um_str.
    passo H dp Ed. passo H up Eu.
    apply paragraph_ok in Ed as [_ Hd]. apply paragraph_ok in Eu as [_ Hu].
    apply IH in H as (Ha & Ht & Hi & _).
    split; [|split; [|split]].
    + constructor; [|exact Ha].
      apply voce_regolare_ammessa. unfold voce_regolare. rewrite Et.
      destruct (qta voce); [rewrite Eqt|]; reflexivity.
    + cbn [flat_map testi_voce app forallb]. rewrite Hd, Hu, Ht. reflexivity.
    + cbn [flat_map]. rewrite forallb_app, Hi, andb_true_r.
      unfold interi_voce. destruct (pz voce) as [n|]; [|reflexivity].
      cbn [forallb]. rewrite scrivibile_str in Ep.
      destruct (scrivibile n); [reflexivity|discriminate Ep].
    + intros -> _. passo El n En. rewrite scrivibile_str in En.
      destruct (scrivibile numero_pos); [reflexivity|discriminate En].
Qed.

Lemma passo_posizione_esito (pos : Posizione) (els : list flowable) (s : float)
    (r : list flowable * float) :
  passo_posizione markup_ok pos els s = Ok r ->
  (1 < List.length (voci pos))%nat
  /\ Forall voce_ammessa (voci pos)
  /\ forallb markup_ok (flat_map testi_voce (voci pos)) = true
  /\ forallb scrivibile (pos_numero pos :: flat_map interi_voce (voci pos)) = true.
Proof.
  intro H. unfold passo_posizione in H.
  destruct (ciclo_voci _ _ _ _ _ _) as [[td t]|e] eqn:Ec; [|discriminate H].
  cbn [bind] in H.
  assert (Hl : (1 < List.length (voci pos))%nat).
  { destruct (Nat.lt_ge_cases 1 (List.length (voci pos))) as [Hl|Hl]; [exact Hl|].
    unfold tabella in H. rewrite (proj2 (stile_una_voce pos Hl)) in H.
    discriminate H. }
  apply ciclo_voci_esito in Ec as (Ha & Ht & Hi & Hn).
  split; [exact Hl|]. split; [exact Ha|]. split; [exact Ht|].
  cbn [forallb]. rewrite Hi, andb_true_r. apply Hn; [reflexivity|].
  intro Hv. rewrite Hv in Hl. cbn in Hl. lia.
Qed.

Lemma ciclo_posizioni_esito (ps : list Posizione) :
  forall (els : list flowable) (s : float) (r : list flowable * float),
    ciclo_posizioni markup_ok ps els s = Ok r ->
    Forall (fun pos => (1 < List.length (voci pos))%nat
                       /\ Forall voce_ammessa (voci pos)) ps
    /\ forallb markup_ok
         (flat_map (fun pos => flat_map testi_voce (voci pos)) ps) = true
    /\ forallb scrivibile
         (flat_map (fun pos => pos_numero pos :: flat_map interi_voce (voci pos))
            ps) = true.
Proof.
  induction ps as [|pos resto IH]; intros els s r H.
  - split; [constructor|split; reflexivity].
  - cbn [ciclo_posizioni] in H.
    destruct (passo_posizione markup_ok pos els s) as [[e1 s1]|e] eqn:Ep;
      [|discriminate H].
    cbn [bind fst snd] in H.
    apply passo_posizione_esito in Ep as (Hl & Ha & Ht & Hi).
    apply IH in H as (Hf & Hts & His).
    split; [constructor; [split; assumption|exact Hf]|].
    cbn [flat_map]. rewrite !forallb_app, Ht, Hts, Hi, His. split; reflexivity.
Qed.

Lemma componi_esito (logo : flowable) (p : Preventivo) (d : list flowable) :
  componi markup_ok logo p = Ok d ->
  preventivo_ammesso p
  /\ forallb markup_ok (testi_richiesta p) = true
  /\ forallb scrivibile (interi_scritti p) = true.
Proof.
  unfold componi. intro H.
  passo H a1 E1. passo H a2 E2. passo H a3 E3. passo H a4 E4.
  passo H a5 E5. passo H a6 E6. passo H a7 E7.
  unfold tabella in H. cbn [setStyle bind] in H.
  passo H q1 Eq1. passo H q2 Eq2.
  destruct (ciclo_posizioni markup_ok (posizioni p) _ _) as [r|e] eqn:Ec;
    [|discriminate H].
  apply ciclo_posizioni_esito in Ec as (Hf & Ht & Hi).
  apply paragraph_ok in E1 as [_ E1]. apply paragraph_ok in E2 as [_ E2].
  apply paragraph_ok in E3 as [_ E3]. apply paragraph_ok in E4 as [_ E4].
  apply paragraph_ok in E5 as [_ E5]. apply paragraph_ok in E6 as [_ E6].
  apply paragraph_ok in E7 as [_ E7]. apply paragraph_ok in Eq1 as [_ Eq1].
  apply paragraph_ok in Eq2 as [_ Eq2].
  split; [exact Hf|]. split; [|exact Hi].
  unfold testi_richiesta. rewrite forallb_app, Ht. cbn [forallb].
  rewrite E1, E2, E3, E4, E5, E6, E7, Eq1, Eq2. reflexivity.
Qed.

(** *** The quotations whose story is built *)

Lemma ciclo_voci_riesce (numero_pos : Z) (vs : list VocePreventivo) :
  forall (td : list (list cella)) (t0 : float) (primo : bool),
    Forall voce_ammessa vs ->
    forallb markup_ok (flat_map testi_voce vs) = true ->
    forallb scrivibile (flat_map interi_voce vs) = true ->
    (primo = true -> scrivibile numero_pos = true) ->
    exists r : list (list cella) * float,
      ciclo_voci markup_ok numero_pos vs td t0 primo = Ok r.
Proof.
  induction vs as [|voce resto IH]; intros td t0 primo Ha Ht Hi Hn.
  - eexists. reflexivity.
  - inversion Ha as [|v l Hv Hr]; subst.
    apply voce_regolare_ammessa in Hv. unfold voce_regolare in Hv.
    cbn [flat_map testi_voce app forallb] in Ht.
    apply andb_prop in Ht as [Hd Ht]. apply andb_prop in Ht as [Hu Ht].
    cbn [flat_map] in Hi. rewrite forallb_app in Hi.
    apply andb_prop in Hi as [Hp Hi].
    cbn [ciclo_voci].
    avanti.
    { destruct primo; [|eexists; reflexivity].
      rewrite scrivibile_str, (Hn eq_refl). eexists. reflexivity. }
    destruct (calcola_totale_voce voce) as [t|e]; [|discriminate Hv].
    cbn [bind].
    avanti.
    { unfold interi_voce in Hp. destruct (pz voce) as [n|];
        [|eexists; reflexivity].
      cbn [forallb] in Hp. rewrite andb_true_r in Hp.
      rewrite scrivibile_str, Hp. eexists. reflexivity. }
    avanti.
    { destruct (qta voce) as [q|]; [|eexists; reflexivity].
      destruct (formatta_numero q); [eexists; reflexivity|discriminate Hv]. }
    pose proof (um_str_testo voce) as Hus.
    destruct (formatta_prezzo_e_um voce) as [prezzo_str um_str].
    cbn [snd] in Hus. subst um_str.
    unfold paragraph at 1 2. rewrite Hd, Hu. cbn [bind].
    apply IH; try assumption. discriminate.
Qed.

Lemma ciclo_posizioni_riesce (ps : list Posizione) :
  forall (els : list flowable) (s : float),
    Forall (fun pos => (1 < List.length (voci pos))%nat
                       /\ Forall voce_ammessa (voci pos)) ps ->
    forallb markup_ok
      (flat_map (fun pos => flat_map testi_voce (voci pos)) ps) = true ->
    forallb scrivibile
      (flat_map (fun pos => pos_numero pos :: flat_map interi_voce (voci pos))
         ps) = true ->
    exists r : list flowable * float,
      ciclo_posizioni markup_ok ps els s = Ok r.
Proof.
  induction ps as [|pos resto IH]; intros els s Hf Ht Hi.
  - eexists. reflexivity.
  - inversion Hf as [|q l [Hl Ha] Hr]; subst.
    cbn [flat_map] in Ht, Hi. rewrite forallb_app in Ht, Hi.
    apply andb_prop in Ht as [Ht Hts]. apply andb_prop in Hi as [Hi His].
    cbn [forallb] in Hi. apply andb_prop in Hi as [Hn Hi].
    cbn [ciclo_posizioni]. unfold passo_posizione.
    destruct (ciclo_voci_riesce (pos_numero pos) (voci pos) [intestazione]
                0%float true Ha Ht Hi (fun _ => Hn)) as [[td t] ->].
    cbn [bind]. unfold tabella. rewrite (stile_piu_voci pos Hl).
    cbn [setStyle firstn skipn app bind fst snd].
    apply IH; assumption.
Qed.

Lemma componi_riesce (logo : flowable) (p : Preventivo) :
  preventivo_ammesso p ->
  forallb markup_ok (testi_richiesta p) = true ->
  forallb scrivibile (interi_scritti p) = true ->
  exists d : list flowable, componi markup_ok logo p = Ok d.
Proof.
  intros Hf Ht Hi. unfold testi_richiesta in Ht.
  rewrite forallb_app in Ht. apply andb_prop in Ht as [Hc Ht].
  cbn [forallb] in Hc.
  repeat match type of Hc with
         | (_ && _)%bool = true =>
             let E := fresh "E" in apply andb_prop in Hc as [E Hc]
         end.
  unfold componi, paragraph.
  repeat match goal with
         | E : markup_ok _ = true |- _ => rewrite E; clear E
         end.
  cbn [bind]. unfold tabella. cbn [setStyle bind].
  match goal with
  | |- context [ciclo_posizioni markup_ok (posizioni p) ?els ?s] =>
      destruct (ciclo_posizioni_riesce (posizioni p) els s Hf Ht Hi)
        as [[els' sub] ->]
  end.
  cbn [bind]. eexists. reflexivity.
Qed.

(** *** The parser only decides whether the story is built *)

Lemma ciclo_voci_permissivo (numero_pos : Z) (vs : list VocePreventivo) :
  forall (td : list (list cella)) (t0 : float) (primo : bool)
         (r : list (list cella) * float),
    ciclo_voci markup_ok numero_pos vs td t0 primo = Ok r ->
    ciclo_voci (fun _ => true) numero_pos vs td t0 primo = Ok r.
Proof.
  induction vs as [|voce resto IH]; intros td t0 primo r H; [exact H|].
  cbn [ciclo_voci] in H |- *.
  passo H lab El. passo H t Et. passo H ps Ep. passo H qs Eqt.
  cbn [bind].
  destruct (formatta_prezzo_e_um voce) as [prezzo_str um_str].
  passo H dp Ed. passo H up Eu.
  apply paragraph_ok in Ed as [-> _]. apply paragraph_ok in Eu as [-> _].
  cbn [bind paragraph]. apply IH. exact H.
Qed.

Lemma ciclo_posizioni_permissivo (ps : list Posizione) :
  forall (els : list flowable) (s : float) (r : list flowable * float),
    ciclo_posizioni markup_ok ps els s = Ok r ->
    ciclo_posizioni (fun _ => true) ps els s = Ok r.
Proof.
  induction ps as [|pos resto IH]; intros els s r H; [exact H|].
  cbn [ciclo_posizioni] in H |- *.
  destruct (passo_posizione markup_ok pos els s) as [r1|e] eqn:Ep;
    [|discriminate H].
  cbn [bind] in H.
  assert (Ep' : passo_posizione (fun _ => true) pos els s = Ok r1).
  { unfold passo_posizione in Ep |- *.
    destruct (ciclo_voci markup_ok _ _ _ _ _) as [r0|e] eqn:Ec;
      [|discriminate Ep].
    rewrite (ciclo_voci_permissivo _ _ _ _ _ _ Ec). exact Ep. }
  rewrite Ep'. cbn [bind]. apply IH. exact H.
Qed.

Lemma componi_permissivo (logo : flowable) (p : Preventivo) (d : list flowable) :
  componi markup_ok logo p = Ok d ->
  componi (fun _ => true) logo p = Ok d.
Proof.
  unfold componi. intro H.
  passo H a1 E1. passo H a2 E2. passo H a3 E3. passo H a4 E4.
  passo H a5 E5. passo H a6 E6. passo H a7 E7.
  unfold tabella in H |- *. cbn [setStyle bind] in H.
  passo H q1 Eq1. passo H q2 Eq2.
  apply paragraph_ok in E1 as [-> _]. apply paragraph_ok in E2 as [-> _].
  apply paragraph_ok in E3 as [-> _]. apply paragraph_ok in E4 as [-> _].
  apply paragraph_ok in E5 as [-> _]. apply paragraph_ok in E6 as [-> _].
  apply paragraph_ok in E7 as [-> _]. apply paragraph_ok in Eq1 as [-> _].
  apply paragraph_ok in Eq2 as [-> _].
  cbn [paragraph setStyle bind].
  match type of H with
  | context [ciclo_posizioni markup_ok (posizioni p) ?els ?s] =>
      destruct (ciclo_posizioni markup_ok (posizioni p) els s) as [r|e] eqn:Ec;
        [|discriminate H];
        rewrite (ciclo_posizioni_permissivo _ _ _ _ Ec)
  end.
  exact H.
Qed.

End Riuscita.

(** X9: the story of a quotation is built exactly when the logo step gives
    an element, every position has at least two lines, every quantity
    that is present is finite, every piece-count that the piece rule uses
    fits a float, every position number and piece-count has no more
    digits than [str] writes, and the paragraph parser accepts the
    company lines, the quote and client blocks and the description and
    unit of every line.  The document is then what the layout makes of
    that story. *)
Theorem storia_riesce_sse :
  forall (requests_get : string -> Z -> esito risposta)
         (markup_ok immagine_ok : string -> bool) (p : Preventivo),
    ((exists d : list flowable,
         storia requests_get markup_ok immagine_ok p = Ok d)
     <-> (exists logo : flowable,
            carica_logo requests_get markup_ok immagine_ok p = Ok logo)
         /\ Forall (fun pos =>
                      (1 < List.length (voci pos))%nat
                      /\ Forall (fun v =>
                                   (forall q : float,
                                       qta v = Some q -> finito q = true)
                                   /\ (forall (x : float) (n : Z),
                                         prezzo v = Some x ->
                                         um_contiene v "pz" = true ->
                                         pz v = Some n ->
                                         exists y : float,
                                           PyFloat.of_int n = Ok y))
                           (voci pos))
              (posizioni p)
         /\ forallb markup_ok (testi_richiesta p) = true
         /\ forallb scrivibile (interi_scritti p) = true)
    /\ (forall (doc_build : list flowable -> esito string) (pdf : string),
          genera_pdf_preventivo requests_get markup_ok immagine_ok doc_build p
          = Ok pdf
          <-> exists d : list flowable,
                storia requests_get markup_ok immagine_ok p = Ok d
                /\ doc_build d = Ok pdf).
Proof.
  intros requests_get markup_ok immagine_ok p. split; [split|].
  - intros [d Hd]. unfold storia in Hd.
    destruct (carica_logo requests_get markup_ok immagine_ok p) as [logo|e];
      [|discriminate Hd].
    cbn [bind] in Hd. split; [exists logo; reflexivity|].
    exact (componi_esito markup_ok logo p d Hd).
  - intros ([logo Hl] & Hf & Ht & Hi). unfold storia. rewrite Hl. cbn [bind].
    exact (componi_riesce markup_ok logo p Hf Ht Hi).
  - intros doc_build pdf. unfold genera_pdf_preventivo. split.
    + intro H.
      destruct (storia requests_get markup_ok immagine_ok p) as [d|e];
        [|discriminate H].
      exists d. split; [reflexivity|exact H].
    + intros (d & -> & Hd). exact Hd.
Qed.
(** ** The endpoints *)

Section NomeFile.

Lemma caratteri_app (a b : string) :
  caratteri (a ++ b) = (caratteri a ++ caratteri b)%list.
Proof.
  induction a as [|c r IH]; [reflexivity|]. cbn. rewrite IH. reflexivity.
Qed.

Lemma length_append (a b : string) :
  String.length (a ++ b) = (String.length a + String.length b)%nat.
Proof.
  induction a as [|c r IH]; [reflexivity|]. cbn. rewrite IH. reflexivity.
Qed.

Lemma replace_length (old new : ascii) (s : string) :
  String.length (PyStr.replace old new s) = String.length s.
Proof.
  induction s as [|c r IH]; [reflexivity|]. cbn. rewrite IH. reflexivity.
Qed.

Lemma replace_elimina (old new : ascii) (s : string) :
  old <> new -> ~ In old (caratteri (PyStr.replace old new s)).
Proof.
  intro Hd. induction s as [|c r IH]; [intros []|].
  cbn. intros [H|H]; [|exact (IH H)].
  destruct (Ascii.eqb_spec c old) as [->|Hc]; congruence.
Qed.

Lemma replace_assente (old new : ascii) (s : string) :
  ~ In old (caratteri s) -> PyStr.replace old new s = s.
Proof.
  induction s as [|c r IH]; [reflexivity|].
  cbn. intro H. rewrite IH by tauto.
  destruct (Ascii.eqb_spec c old) as [->|Hc]; [tauto|reflexivity].
Qed.

End NomeFile.

(** X11: the file name offered for a quotation never contains a '/', whatever
    the quote number; it is as long as the quote number plus the 15
    characters of 'preventivo_' and '.pdf', and a quote number without '/'
    appears in it unchanged. *)
Theorem nome_file_senza_barra :
  forall p : Preventivo,
    ~ In "/"%char (caratteri (nome_file p))
    /\ String.length (nome_file p) = (15 + String.length (numero p))%nat
    /\ (~ In "/"%char (caratteri (numero p)) ->
        nome_file p = "preventivo_" ++ numero p ++ ".pdf").
Proof.
  intro p. unfold nome_file. split; [|split].
  - rewrite !caratteri_app, !in_app_iff. intros [H|[H|H]].
    + cbn in H. repeat (destruct H as [H|H]; [discriminate H|]). exact H.
    + revert H. apply replace_elimina. discriminate.
    + cbn in H. repeat (destruct H as [H|H]; [discriminate H|]). exact H.
  - rewrite !length_append, replace_length. cbn. lia.
  - intro H. rewrite (replace_assente _ _ _ H). reflexivity.
Qed.


Section Intestazioni.




End Intestazioni.



(** X12: the sample endpoint.  Whatever the date and whatever the logo
    download does, once the parser accepts the texts of the sample
    quotation its story is built, with 22 elements and a totals table
    showing 363.500,00, 79.970,00 and 443.470,00 euro; the answer is the
    document the layout makes of that story, under the name
    'preventivo_1017-2025.pdf', or 500 with the message of what the layout
    raised. *)
Theorem genera_esempio_riesce :
  forall (requests_get : string -> Z -> esito risposta)
         (markup_ok immagine_ok : string -> bool)
         (doc_build : list flowable -> esito string)
         (str_eccezione : eccezione -> string) (oggi : string),
    markup_ok "<b>AbitaLab</b>" = true ->
    forallb markup_ok (testi_richiesta (output (esempio oggi))) = true ->
    exists d : list flowable,
      storia requests_get markup_ok immagine_ok (output (esempio oggi)) = Ok d
      /\ List.length d = 22%nat
      /\ (exists (w : list float) (c : list comando),
            nth_error d 8
            = Some (Table
                      [[Elemento (Paragraph "Imponibile" TotalsLabel);
                        Elemento (Paragraph "363.500,00 €" TotalsValue)];
                       [Elemento (Paragraph "IVA 22%" TotalsLabel);
                        Elemento (Paragraph "79.970,00 €" TotalsValue)];
                       [Elemento (Paragraph "<b>Totale Preventivo</b>" TotalsLabel);
                        Elemento (Paragraph "<b>443.470,00 €</b>" TotalsValue)]]
                      w 0 c))
      /\ genera_esempio requests_get markup_ok immagine_ok doc_build
           str_eccezione oggi
         = match doc_build d with
           | Ok pdf =>
               Restituisce
                 (mkStreaming pdf "application/pdf"
                    [("Content-Disposition",
                      "inline; filename=preventivo_1017-2025.pdf")])
           | Raise e =>
               Solleva
                 (mkHTTPException 500
                    ("Errore nella generazione del PDF: " ++ str_eccezione e))
           end.
Proof.
  intros requests_get markup_ok immagine_ok doc_build str_eccezione oggi Hb Ht.
  assert (Hl : exists logo : flowable,
             carica_logo requests_get markup_ok immagine_ok
               (output (esempio oggi)) = Ok logo).
  { destruct (carica_logo requests_get markup_ok immagine_ok
                (output (esempio oggi))) as [logo|e] eqn:El;
      [exists logo; reflexivity|].
    apply carica_logo_solleva in El as [_ El].
    cbn in El. congruence. }
  destruct Hl as [logo Hl].
  assert (Ha : preventivo_ammesso (output (esempio oggi))).
  { unfold preventivo_ammesso. cbn [output esempio posizioni].
    constructor; [|constructor]. split; [cbn; lia|].
    repeat constructor; cbn;
      try (intros q Hq; injection Hq as <-; reflexivity);
      try (intros x n _ Hu _; discriminate Hu);
      try (intros x n _ _ Hn; discriminate Hn). }
  assert (Hi : forallb scrivibile (interi_scritti (output (esempio oggi))) = true)
    by (vm_compute; reflexivity).
  destruct (componi_riesce markup_ok logo _ Ha Ht Hi) as [d Hd].
  pose proof (componi_permissivo markup_ok logo _ d Hd) as Hp.
  exists d.
  assert (Hs : storia requests_get markup_ok immagine_ok (output (esempio oggi))
               = Ok d).
  { unfold storia. rewrite Hl. exact Hd. }
  split; [exact Hs|].
  assert (Hv : exists r : list flowable,
             componi (fun _ => true) logo (output (esempio oggi)) = Ok r
             /\ List.length r = 22%nat
             /\ exists (w : list float) (c : list comando),
                  nth_error r 8
                  = Some (Table
                            [[Elemento (Paragraph "Imponibile" TotalsLabel);
                              Elemento (Paragraph "363.500,00 €" TotalsValue)];
                             [Elemento (Paragraph "IVA 22%" TotalsLabel);
                              Elemento (Paragraph "79.970,00 €" TotalsValue)];
                             [Elemento (Paragraph "<b>Totale Preventivo</b>"
                                          TotalsLabel);
                              Elemento (Paragraph "<b>443.470,00 €</b>"
                                          TotalsValue)]]
                            w 0 c)).
  { eexists. split; [lazy; reflexivity|]. split; [reflexivity|].
    do 2 eexists. reflexivity. }
  destruct Hv as (r & Hr & Hlen & Htab).
  assert (r = d) by congruence. subst r.
  split; [exact Hlen|]. split; [exact Htab|].
  unfold genera_esempio, genera_preventivo_endpoint, genera_pdf_preventivo.
  rewrite Hs. cbn [bind].
  destruct (doc_build d) as [pdf|e]; cbn [bind]; reflexivity.
Qed.

(** The sample of 3 November 2026 with a logo that does not download and a
    layout that succeeds. *)
Lemma genera_esempio_riesce_es :
  exists d : list flowable,
    storia (fun _ _ => Raise RequestException) (fun _ => true) (fun _ => true)
      (output (esempio "03/11/2026")) = Ok d
    /\ List.length d = 22%nat
    /\ genera_esempio (fun _ _ => Raise RequestException) (fun _ => true)
         (fun _ => true) (fun _ => Ok "%PDF") (fun _ => "") "03/11/2026"
       = Restituisce
           (mkStreaming "%PDF" "application/pdf"
              [("Content-Disposition",
                "inline; filename=preventivo_1017-2025.pdf")]).
Proof.
  destruct (genera_esempio_riesce
              (fun _ _ => Raise RequestException) (fun _ => true) (fun _ => true)
              (fun _ => Ok "%PDF") (fun _ => "") "03/11/2026" eq_refl eq_refl)
    as (d & Hs & Hl & _ & Hg).
  exists d. split; [exact Hs|]. split; [exact Hl|exact Hg].
Defined.

Lemma nome_file_senza_barra_es :
  nome_file
    (mkPreventivo "1017-2025" "01/01/2025" (mkCliente "N" "I" "C" "K")
       (mkAzienda "A" "B" "C" "D" "E" "F" "G") [] 22%float)
  = "preventivo_1017-2025.pdf".
Proof.
  refine (proj2 (proj2 (nome_file_senza_barra _)) _).
  cbn. intros H. repeat (destruct H as [H|H]; [discriminate H|]). exact H.
Defined.
(** ** The pages the canvas emits *)

Section PagineEmesse.

Import PageNumCanvas.

Lemma impaginazione_codice (az : list azione) :
  forall c : canvas,
    map _code (pages (fold_left esegui az c))
    = (map _code (pages c) ++ pagine_chiuse az (_code (attr c)))%list.
Proof.
  induction az as [|a az IH]; intro c.
  - cbn. rewrite app_nil_r. reflexivity.
  - cbn [fold_left pagine_chiuse]. rewrite IH. destruct a as [o|].
    + reflexivity.
    + cbn [esegui showPage _startPage con_attr pages attr _code].
      rewrite map_app, <- app_assoc. reflexivity.
Qed.

Lemma timbrate_numerate (n : Z) (ps : list dizionario) :
  forall da : Z,
    map _pageNumber ps = numeri da (List.length ps) ->
    map (fun p => (_code p ++ timbro (_pageNumber p) n)%list) ps
    = map (fun kp => (snd kp ++ timbro (fst kp) n)%list)
        (numerate da (map _code ps)).
Proof.
  induction ps as [|p ps IH]; intros da H; [reflexivity|].
  cbn [map List.length numeri] in H. injection H as Hp Hr.
  cbn [map numerate fst snd]. rewrite Hp, (IH (da + 1)%Z Hr). reflexivity.
Qed.

Lemma pagine_chiuse_coda (az : list azione) (ops : list operazione) :
  forall corrente : list operazione,
    pagine_chiuse (az ++ map Disegna ops) corrente = pagine_chiuse az corrente.
Proof.
  induction az as [|a az IH]; intro corrente.
  - cbn [app]. revert corrente.
    induction ops as [|o ops IHo]; intro corrente; [reflexivity|].
    cbn. apply IHo.
  - destruct a; cbn; [apply IH|f_equal; apply IH].
Qed.

Lemma documento_salvato (az : list azione) :
  _doc (save (impagina az))
  = map (fun kp =>
           (snd kp
              ++ timbro (fst kp) (Z.of_nat (List.length (pagine_chiuse az []))))%list)
      (numerate 1 (pagine_chiuse az [])).
Proof.
  unfold impagina.
  destruct (impaginazione az init) as (Hd & _ & nuove & Hp & _ & Hn).
  pose proof (impaginazione_codice az init) as Hc.
  cbn [init pages attr _code map app _pageNumber] in Hp, Hc, Hn.
  set (c := fold_left esegui az init) in *.
  unfold save.
  destruct (super_save_doc
              (fold_left (ripeti (Z.of_nat (List.length (pages c)))) (pages c) c))
    as (Sd & _).
  rewrite Sd.
  destruct (ripetizione (Z.of_nat (List.length (pages c))) (pages c) c) as (Rd & _).
  rewrite Rd, Hd. cbn [app].
  rewrite <- Hc, length_map.
  apply timbrate_numerate. rewrite Hp. exact Hn.
Qed.

End PagineEmesse.

(** X13: what the saved document holds: one page for each page end of the
    layout, in order, made of exactly the drawing calls issued since the
    previous page end followed by the stamp with the page's position and
    the number of page ends.  Drawing calls issued after the last page end
    reach no page: adding them changes nothing in the document. *)
Theorem pagine_emesse :
  forall (az : list PageNumCanvas.azione),
    PageNumCanvas._doc (PageNumCanvas.save (PageNumCanvas.impagina az))
    = map (fun kp =>
             (snd kp
                ++ PageNumCanvas.timbro (fst kp)
                     (Z.of_nat (List.length (pagine_chiuse az []))))%list)
        (numerate 1 (pagine_chiuse az []))
    /\ List.length (PageNumCanvas._doc (PageNumCanvas.save (PageNumCanvas.impagina az)))
       = PageNumCanvas.conta_pagine az
    /\ forall ops : list PageNumCanvas.operazione,
         PageNumCanvas._doc
           (PageNumCanvas.save
              (PageNumCanvas.impagina (az ++ map PageNumCanvas.Disegna ops)))
         = PageNumCanvas._doc (PageNumCanvas.save (PageNumCanvas.impagina az)).
Proof.
  intro az. split; [apply documento_salvato|split].
  - rewrite documento_salvato, length_map.
    assert (E : forall (A : Type) (l : list A) (da : Z),
               List.length (numerate da l) = List.length l).
    { intros A l. induction l as [|x r IH]; intro da; [reflexivity|].
      cbn. rewrite IH. reflexivity. }
    rewrite E.
    assert (P : forall a c, List.length (pagine_chiuse a c)
                            = PageNumCanvas.conta_pagine a).
    { intro a. induction a as [|x r IH]; intro c; [reflexivity|].
      destruct x; cbn; [apply IH|f_equal; apply IH]. }
    apply P.
  - intro ops. rewrite !documento_salvato, pagine_chiuse_coda. reflexivity.
Qed.

(** ** Matching a marker in the unit of measure *)

Section Marcatori.

Lemma prefix_append (n h : string) :
  String.prefix n h = true <-> exists b : string, h = n ++ b.
Proof.
  revert h. induction n as [|c n IH]; intro h.
  - split; [intros _; exists h; reflexivity|intros _; destruct h; reflexivity].
  - destruct h as [|x h]; cbn [String.prefix].
    + split; [discriminate|intros [b Hb]; discriminate Hb].
    + destruct (ascii_dec c x) as [->|Hne].
      * rewrite IH. split; intros [b Hb]; exists b.
        -- cbn. rewrite Hb. reflexivity.
        -- cbn in Hb. injection Hb as Hb. exact Hb.
      * split; [discriminate|].
        intros [b Hb]. cbn in Hb. injection Hb as Hc _. congruence.
Qed.

Lemma contains_sottostringa (n h : string) :
  PyStr.contains n h = true <-> exists a b : string, h = a ++ n ++ b.
Proof.
  split.
  - induction h as [|x h IH]; cbn [PyStr.contains];
      destruct (String.prefix n _) eqn:Ep.
    + intros _. apply prefix_append in Ep as [b Hb]. exists "", b. exact Hb.
    + discriminate.
    + intros _. apply prefix_append in Ep as [b Hb]. exists "", b. exact Hb.
    + intro H. destruct (IH H) as (a & b & ->). exists (String x a), b. reflexivity.
  - intros (a & b & ->). induction a as [|x a IH].
    + cbn [append].
      assert (Ep : String.prefix n (n ++ b) = true)
        by (apply prefix_append; exists b; reflexivity).
      destruct (n ++ b); cbn [PyStr.contains]; rewrite Ep; reflexivity.
    + cbn [append PyStr.contains]. rewrite IH.
      destruct (String.prefix n _); reflexivity.
Qed.

End Marcatori.

(** X5: what matching a marker means: the test of the pricing rule holds
    exactly when the unit of measure is present and not empty and its
    lower-cased text has the marker as a substring, at any place. *)
Theorem um_contiene_sottostringa :
  forall (voce : VocePreventivo) (marker : string),
    um_contiene voce marker = true
    <-> exists u a b : string,
          um voce = Some u /\ u <> "" /\ PyStr.lower u = a ++ marker ++ b.
Proof.
  intros voce marker. unfold um_contiene. split.
  - destruct (um voce) as [u|]; [|discriminate].
    intro H. apply andb_prop in H as [Ht Hc].
    apply contains_sottostringa in Hc as (a & b & Hab).
    exists u, a, b. split; [reflexivity|split; [|exact Hab]].
    intros ->. discriminate Ht.
  - intros (u & a & b & -> & Hne & Hab).
    apply andb_true_intro. split.
    + destruct u; [congruence|reflexivity].
    + apply contains_sottostringa. exists a, b. exact Hab.
Qed.

(** ** The logo download *)


